(** * The application lifecycle shell of [main.js]

    [main.js] is the main-process script of an Electron application.  It
    contains one function, [createWindow], and three callbacks handed to the
    host framework: the continuation of [app.whenReady()], the listener of
    ['activate'] registered by that continuation, and the listener of
    ['window-all-closed'].

    The script is embedded over a simulated host framework: a record [Host]
    that owns the window set, the registered callbacks and the process
    state, and that records every call the script makes and every value it
    hands back to the script.  Host calls can be planned to throw, so the
    code runs in a state-and-exception monad. *)

From stdpp Require Import base strings list gmap.

Open Scope string_scope.
Open Scope list_scope.

(** ** Values exchanged with the host framework *)

(** [webPreferences: { preload: ... }] *)
Record WebPreferences := mkWebPreferences {
  preload : string
}.

(** The object literal passed to [new BrowserWindow(...)]. *)
Record BrowserWindowOptions := mkOptions {
  width : nat;
  height : nat;
  webPreferences : WebPreferences
}.

(** A top-level window as the host keeps it: its identifier, the options it
    was constructed with, and the document last loaded into it. *)
Record BrowserWindow := mkWindow {
  win_id : nat;
  win_options : BrowserWindowOptions;
  win_document : option string
}.

(** The three function expressions of [main.js] that are handed to the host.
    A registration stores the name; [run_callback] below gives the body. *)
Inductive Callback :=
| ReadyContinuation          (* main.js 15-21 *)
| ActivateListener           (* main.js 17-20 *)
| WindowAllClosedListener.   (* main.js 22-25 *)

(** Calls of the script into the host framework. *)
Inductive Call :=
| CallNewBrowserWindow (o : BrowserWindowOptions)
| CallLoadFile (win : nat) (path : string)
| CallGetAllWindows
| CallQuit
| CallOn (event : string) (cb : Callback)
| CallWhenReadyThen (cb : Callback).

(** What the host hands to the script: an event it fires, and the number of
    windows in the array answered by [BrowserWindow.getAllWindows()]. *)
Inductive Input :=
| Fired (event : string)
| Counted (n : nat).

(** A failure raised by a host call. *)
Inductive Error :=
| HostFailure (msg : string).

(** ** The simulated host *)

Record Host := mkHost {
  platform : string;                          (* process.platform *)
  is_ready : bool;                            (* app.whenReady() is fulfilled *)
  reactions : list Callback;                  (* callbacks awaiting app.whenReady() *)
  listeners : gmap string (list Callback);    (* listeners of app, by event name *)
  windows : list BrowserWindow;               (* BrowserWindow.getAllWindows() *)
  next_id : nat;                              (* identifier of the next window *)
  terminated : bool;                          (* the process has exited *)
  outcomes : list (option Error);             (* planned results of the coming calls *)
  calls : list Call;                          (* calls received, oldest first *)
  inputs : list Input;                        (* values handed to the script, oldest first *)
  uncaught : list Error                       (* failures that escaped a callback *)
}.

Definition set_is_ready (b : bool) (h : Host) : Host :=
  mkHost (platform h) b (reactions h) (listeners h) (windows h) (next_id h)
         (terminated h) (outcomes h) (calls h) (inputs h) (uncaught h).

Definition set_reactions (r : list Callback) (h : Host) : Host :=
  mkHost (platform h) (is_ready h) r (listeners h) (windows h) (next_id h)
         (terminated h) (outcomes h) (calls h) (inputs h) (uncaught h).

Definition set_listeners (l : gmap string (list Callback)) (h : Host) : Host :=
  mkHost (platform h) (is_ready h) (reactions h) l (windows h) (next_id h)
         (terminated h) (outcomes h) (calls h) (inputs h) (uncaught h).

Definition set_windows (ws : list BrowserWindow) (h : Host) : Host :=
  mkHost (platform h) (is_ready h) (reactions h) (listeners h) ws (next_id h)
         (terminated h) (outcomes h) (calls h) (inputs h) (uncaught h).

Definition set_next_id (n : nat) (h : Host) : Host :=
  mkHost (platform h) (is_ready h) (reactions h) (listeners h) (windows h) n
         (terminated h) (outcomes h) (calls h) (inputs h) (uncaught h).

Definition set_terminated (b : bool) (h : Host) : Host :=
  mkHost (platform h) (is_ready h) (reactions h) (listeners h) (windows h) (next_id h)
         b (outcomes h) (calls h) (inputs h) (uncaught h).

Definition set_outcomes (o : list (option Error)) (h : Host) : Host :=
  mkHost (platform h) (is_ready h) (reactions h) (listeners h) (windows h) (next_id h)
         (terminated h) o (calls h) (inputs h) (uncaught h).

Definition set_calls (c : list Call) (h : Host) : Host :=
  mkHost (platform h) (is_ready h) (reactions h) (listeners h) (windows h) (next_id h)
         (terminated h) (outcomes h) c (inputs h) (uncaught h).

Definition set_inputs (i : list Input) (h : Host) : Host :=
  mkHost (platform h) (is_ready h) (reactions h) (listeners h) (windows h) (next_id h)
         (terminated h) (outcomes h) (calls h) i (uncaught h).

Definition set_uncaught (u : list Error) (h : Host) : Host :=
  mkHost (platform h) (is_ready h) (reactions h) (listeners h) (windows h) (next_id h)
         (terminated h) (outcomes h) (calls h) (inputs h) u.

(** ** The monad the script runs in *)

(** A JavaScript completion: a value, or a thrown error.  Effects made before
    a throw stay, so the state is returned in both cases. *)
Inductive Completion (A : Type) :=
| Normal (a : A)
| Throw (e : Error).
Arguments Normal {A} a.
Arguments Throw {A} e.

Definition M (A : Type) : Type := Host → Completion A * Host.

Definition ret {A} (a : A) : M A := λ h, (Normal a, h).

Definition bind {A B} (m : M A) (k : A → M B) : M B :=
  λ h, match m h with
       | (Normal a, h') => k a h'
       | (Throw e, h') => (Throw e, h')
       end.

Declare Scope host_scope.
Delimit Scope host_scope with host.
Notation "'let*' x ':=' m 'in' k" := (bind m (λ x, k))
  (at level 10, x name, m at level 100, k at level 200) : host_scope.
Notation "m '>>' k" := (bind m (λ _, k))
  (at level 61, left associativity) : host_scope.
Open Scope host_scope.

Definition gets {A} (f : Host → A) : M A := λ h, (Normal (f h), h).
Definition modify (f : Host → Host) : M unit := λ h, (Normal tt, f h).

(** Every host call is recorded when it is received, and then takes the next
    planned outcome: [Some e] makes it throw [e]; an exhausted plan means
    the call succeeds. *)
Definition call (c : Call) : M unit :=
  λ h, let h' := set_calls (calls h ++ [c]) h in
       match outcomes h with
       | Some e :: plan => (Throw e, set_outcomes plan h')
       | None :: plan => (Normal tt, set_outcomes plan h')
       | [] => (Normal tt, h')
       end.

(** [new BrowserWindow(o)]: a window with the next identifier joins the
    window set; the result stands for the new object. *)
Definition BrowserWindow_new (o : BrowserWindowOptions) : M nat :=
  call (CallNewBrowserWindow o) >>
  let* w := gets next_id in
  modify (λ h, set_next_id (S w) (set_windows (windows h ++ [mkWindow w o None]) h)) >>
  ret w.

(** [win.loadFile(path)] *)
Definition BrowserWindow_loadFile (win : nat) (path : string) : M unit :=
  call (CallLoadFile win path) >>
  modify (λ h, set_windows
                 (map (λ w, if Nat.eqb (win_id w) win
                            then mkWindow (win_id w) (win_options w) (Some path)
                            else w) (windows h)) h).

(** [BrowserWindow.getAllWindows()]: the answer is the window set; the host
    notes the length it is handing out. *)
Definition BrowserWindow_getAllWindows : M (list BrowserWindow) :=
  call CallGetAllWindows >>
  let* ws := gets windows in
  modify (λ h, set_inputs (inputs h ++ [Counted (length ws)]) h) >>
  ret ws.

(** [app.quit()]: the remaining windows are closed and the process exits. *)
Definition app_quit : M unit :=
  call CallQuit >>
  modify (λ h, set_terminated true (set_windows [] h)).

(** [app.on(event, cb)]: [cb] is appended to the listeners of [event]. *)
Definition app_on (event : string) (cb : Callback) : M unit :=
  call (CallOn event cb) >>
  modify (λ h, set_listeners
                 (<[event := default [] (listeners h !! event) ++ [cb]]> (listeners h)) h).

(** [app.whenReady().then(cb)]: [cb] waits for the promise. *)
Definition app_whenReady_then (cb : Callback) : M unit :=
  call (CallWhenReadyThen cb) >>
  modify (λ h, set_reactions (reactions h ++ [cb]) h).

(** [process.platform] is a property read, not a call. *)
Definition process_platform : M string := gets platform.

(** A join of two path segments in the style of POSIX, to instantiate
    [path.join] in the examples. *)
Definition posix_join (dir file : string) : string :=
  String.append dir (String.append "/" file).

(** What the host fires and what the user does. *)
Inductive Stimulus :=
| HostReady                  (* the host has finished initialising *)
| Reactivate                 (* the application is reactivated *)
| UserCloses (win : nat).    (* the user closes the window [win] *)

Section Shell.

(** [path.join] of the Node library, and the module-scoped constant
    [__dirname] Node gives to [main.js]. *)
Variable path_join : string → string → string.
Variable __dirname : string.

(** ** main.js *)

(** main.js 5-14 *)
Definition createWindow : M unit :=
  let* win := BrowserWindow_new
                {| width := 800;
                   height := 600;
                   webPreferences := {| preload := path_join __dirname "preload.js" |} |} in
  BrowserWindow_loadFile win "dist/index.html".

(** The bodies of the three callbacks. *)
Definition run_callback (cb : Callback) : M unit :=
  match cb with
  | ReadyContinuation =>                                   (* main.js 15-21 *)
      createWindow >>
      app_on "activate" ActivateListener
  | ActivateListener =>                                    (* main.js 17-20 *)
      let* all := BrowserWindow_getAllWindows in
      if Nat.eqb (length all) 0 then createWindow else ret tt
  | WindowAllClosedListener =>                             (* main.js 22-25 *)
      let* p := process_platform in
      if negb (String.eqb p "darwin") then app_quit else ret tt
  end.

(** The top level of the module: main.js 15 and 22. *)
Definition main : M unit :=
  app_whenReady_then ReadyContinuation >>
  app_on "window-all-closed" WindowAllClosedListener.

(** ** The host's event loop *)

Definition report (e : Error) (h : Host) : Host :=
  set_uncaught (uncaught h ++ [e]) h.

(** [emit] of an event emitter: the listeners run in registration order; an
    error thrown by one of them leaves [emit], reaches the host's own error
    reporting, and the later listeners do not run. *)
Fixpoint dispatch (cbs : list Callback) (h : Host) : Host :=
  match cbs with
  | [] => h
  | cb :: rest =>
      match run_callback cb h with
      | (Normal _, h') => dispatch rest h'
      | (Throw e, h') => report e h'
      end
  end.

Definition emit (event : string) (h : Host) : Host :=
  dispatch (default [] (listeners h !! event))
           (set_inputs (inputs h ++ [Fired event]) h).

(** Fulfilment of [app.whenReady()]: every waiting callback runs, each as a
    reaction of its own; an error thrown by one is an unhandled rejection. *)
Fixpoint settle (cbs : list Callback) (h : Host) : Host :=
  match cbs with
  | [] => h
  | cb :: rest =>
      match run_callback cb h with
      | (Normal _, h') => settle rest h'
      | (Throw e, h') => settle rest (report e h')
      end
  end.

Definition fulfil_ready (h : Host) : Host :=
  settle (reactions h)
         (set_reactions [] (set_is_ready true
            (set_inputs (inputs h ++ [Fired "ready"]) h))).

(** Closing a window takes it out of the window set; when the set becomes
    empty the host fires ['window-all-closed']. *)
Definition close_window (win : nat) (h : Host) : Host :=
  if existsb (λ w, Nat.eqb (win_id w) win) (windows h) then
    let h' := set_windows (filter (λ w, win_id w ≠ win) (windows h)) h in
    match windows h' with
    | [] => emit "window-all-closed" h'
    | _ :: _ => h'
    end
  else h.

(** One turn of the event loop.  A process that has exited takes no more
    turns, and the promise of readiness is fulfilled once. *)
Definition step (s : Stimulus) (h : Host) : Host :=
  if terminated h then h
  else match s with
       | HostReady => if is_ready h then h else fulfil_ready h
       | Reactivate => emit "activate" h
       | UserCloses win => close_window win h
       end.

Definition run (ss : list Stimulus) (h : Host) : Host :=
  fold_left (λ h s, step s h) ss h.

(** A new process on the given platform with the given plan of outcomes:
    nothing registered, no window, identifiers starting at 1. *)
Definition fresh (p : string) (plan : list (option Error)) : Host :=
  mkHost p false [] ∅ [] 1 false plan [] [] [].

(** The process once the host has evaluated [main.js]. *)
Definition boot_with (p : string) (plan : list (option Error)) : Host :=
  snd (main (fresh p plan)).

(** The same on a host whose calls all succeed. *)
Definition boot (p : string) : Host := boot_with p [].

(** ** Vocabulary of the properties *)

(** The options [createWindow] passes to the constructor, and the document
    it loads. *)
Definition shell_options : BrowserWindowOptions :=
  {| width := 800;
     height := 600;
     webPreferences := {| preload := path_join __dirname "preload.js" |} |}.

Definition shell_document : string := "dist/index.html".

(** The configuration of a window: all of it but the identifier. *)
Definition config (w : BrowserWindow) : BrowserWindowOptions * option string :=
  (win_options w, win_document w).

(** The commands among the calls: create-window, load-document and quit.
    Registrations and queries are not commands. *)
Inductive Command :=
| CreateWindow (o : BrowserWindowOptions)
| LoadDocument (path : string)
| QuitProcess.

Definition command_of (c : Call) : option Command :=
  match c with
  | CallNewBrowserWindow o => Some (CreateWindow o)
  | CallLoadFile _ path => Some (LoadDocument path)
  | CallQuit => Some QuitProcess
  | CallGetAllWindows | CallOn _ _ | CallWhenReadyThen _ => None
  end.

Definition commands (h : Host) : list Command := omap command_of (calls h).

Definition is_create (c : Command) : bool :=
  match c with CreateWindow _ => true | _ => false end.

Definition is_quit (c : Command) : bool :=
  match c with QuitProcess => true | _ => false end.

(** How many windows the script has asked for, and how many times it has
    asked the process to end. *)
Definition created (h : Host) : nat := length (List.filter is_create (commands h)).
Definition quits (h : Host) : nat := length (List.filter is_quit (commands h)).

(** The calls [h'] has received since [h]. *)
Definition calls_since (h h' : Host) : list Call := drop (length (calls h)) (calls h').

(** The calls a callback makes when it runs on [h]. *)
Definition calls_of (cb : Callback) (h : Host) : list Call :=
  calls_since h (snd (run_callback cb h)).

(** No call is planned to fail. *)
Definition Reliable (h : Host) : Prop := outcomes h = [].

(** The callbacks are registered the way [main.js] registers them: the
    listener of ['window-all-closed'] from the start; before readiness the
    continuation waits and ['activate'] has no listener; after it the
    continuation is gone and ['activate'] has its one listener. *)
Definition Installed (h : Host) : Prop :=
  listeners h !! "window-all-closed" = Some [WindowAllClosedListener] ∧
  if is_ready h
  then reactions h = [] ∧ listeners h !! "activate" = Some [ActivateListener]
  else reactions h = [ReadyContinuation] ∧ listeners h !! "activate" = None.

(** What holds of the host in every state the script can reach when no
    call fails: the callbacks are installed; there is at most one window;
    before readiness there is no window, the process runs and no command
    has been issued; the process has exited exactly when it was asked to,
    which never happens on darwin. *)
Definition Lifecycle (h : Host) : Prop :=
  Installed h ∧ Reliable h ∧ (length (windows h) ≤ 1)%nat ∧
  (is_ready h = false → windows h = [] ∧ terminated h = false ∧ commands h = []) ∧
  quits h = (if terminated h then 1 else 0) ∧
  (platform h = "darwin" → terminated h = false).

(** Every window asked for, and every window there is, has the options of
    [createWindow]. *)
Definition Uniform (h : Host) : Prop :=
  Forall (λ c, ∀ o, c = CallNewBrowserWindow o → o = shell_options) (calls h) ∧
  Forall (λ w, win_options w = shell_options) (windows h).

(** A computation that keeps [Uniform]. *)
Definition keeps {A} (m : M A) : Prop := ∀ h, Uniform h → Uniform (snd (m h)).

Definition is_reactivate (s : Stimulus) : bool :=
  match s with Reactivate => true | _ => false end.

(** Every reactivation of the run [ss] from [h] reaches a running process
    that has no open window. *)
Fixpoint activations_at_zero (ss : list Stimulus) (h : Host) : Prop :=
  match ss with
  | [] => True
  | s :: ss' =>
      (s = Reactivate → terminated h = false ∧ windows h = []) ∧
      activations_at_zero ss' (step s h)
  end.

(** The commands the inputs call for, one input at a time: readiness and a
    count of zero call for a window and its document, the closing of the
    last window calls for the end of the process except on darwin. *)
Definition response (p : string) (i : Input) : list Command :=
  match i with
  | Fired event =>
      if String.eqb event "ready" then [CreateWindow shell_options; LoadDocument shell_document]
      else if String.eqb event "window-all-closed"
           then (if String.eqb p "darwin" then [] else [QuitProcess])
           else []
  | Counted 0 => [CreateWindow shell_options; LoadDocument shell_document]
  | Counted (S _) => []
  end.

(** The turns of the lifecycle when no call fails, as a relation between
    the state before and the state after: a turn that changes nothing; the
    turn of readiness; a reactivation nobody listens to, one that opens a
    window, one that finds a window; the closing of the last window on
    darwin and elsewhere. *)
Inductive Turn : Stimulus → Host → Host → Prop :=
| Turn_idle s h :
    Turn s h h
| Turn_ready h :
    terminated h = false → is_ready h = false → windows h = [] →
    Turn HostReady h
      (mkHost (platform h) true []
         (<["activate" := [ActivateListener]]> (listeners h))
         [mkWindow (next_id h) shell_options (Some shell_document)] (S (next_id h))
         (terminated h) []
         (calls h ++ [CallNewBrowserWindow shell_options;
                      CallLoadFile (next_id h) shell_document;
                      CallOn "activate" ActivateListener])
         (inputs h ++ [Fired "ready"]) (uncaught h))
| Turn_unheard h :
    terminated h = false → is_ready h = false →
    Turn Reactivate h (set_inputs (inputs h ++ [Fired "activate"]) h)
| Turn_reopen h :
    terminated h = false → is_ready h = true → windows h = [] →
    Turn Reactivate h
      (mkHost (platform h) true (reactions h) (listeners h)
         [mkWindow (next_id h) shell_options (Some shell_document)] (S (next_id h))
         (terminated h) []
         (calls h ++ [CallGetAllWindows; CallNewBrowserWindow shell_options;
                      CallLoadFile (next_id h) shell_document])
         (inputs h ++ [Fired "activate"; Counted 0]) (uncaught h))
| Turn_counted h w :
    terminated h = false → is_ready h = true → windows h = [w] →
    Turn Reactivate h
      (set_inputs (inputs h ++ [Fired "activate"; Counted 1])
         (set_calls (calls h ++ [CallGetAllWindows]) h))
| Turn_stay h w :
    terminated h = false → is_ready h = true → windows h = [w] →
    platform h = "darwin" →
    Turn (UserCloses (win_id w)) h
      (set_inputs (inputs h ++ [Fired "window-all-closed"]) (set_windows [] h))
| Turn_quit h w :
    terminated h = false → is_ready h = true → windows h = [w] →
    platform h ≠ "darwin" →
    Turn (UserCloses (win_id w)) h
      (mkHost (platform h) (is_ready h) (reactions h) (listeners h) [] (next_id h)
         true [] (calls h ++ [CallQuit])
         (inputs h ++ [Fired "window-all-closed"]) (uncaught h)).

(** The inputs that are answered by a new window. *)
Definition opens (i : Input) : bool :=
  match i with
  | Fired event => String.eqb event "ready"
  | Counted n => Nat.eqb n 0
  end.

(** The listeners [main.js] has registered: one for ['window-all-closed'],
    and after readiness one for ['activate']. *)
Definition registered (ready : bool) : gmap string (list Callback) :=
  if ready
  then <["activate" := [ActivateListener]]>
         {["window-all-closed" := [WindowAllClosedListener]]}
  else {["window-all-closed" := [WindowAllClosedListener]]}.

(** The lifecycle of a process in which the [n + 1]-th call of the
    continuation of readiness is planned to throw [e]: ['activate'] has no
    listener; before readiness the continuation waits with that plan ahead of
    it; after readiness the plan is used up and [e] is the one uncaught
    error.  When the failing call is the creation of the window there is no
    window and the process runs; when it is the loading of the document the
    windows have no document. *)
Definition Crippled (n : nat) (e : Error) (h : Host) : Prop :=
  listeners h !! "activate" = None ∧
  listeners h !! "window-all-closed" = Some [WindowAllClosedListener] ∧
  (length (windows h) ≤ 1)%nat ∧
  (n = 0 → windows h = [] ∧ terminated h = false ∧ quits h = 0) ∧
  (n = 1 → Forall (λ w, win_document w = None) (windows h)) ∧
  if is_ready h
  then reactions h = [] ∧ outcomes h = [] ∧ created h = 1 ∧ uncaught h = [e]
  else reactions h = [ReadyContinuation] ∧
       outcomes h = replicate n None ++ [Some e] ∧
       windows h = [] ∧ commands h = [] ∧ terminated h = false ∧ uncaught h = [].

(** What holds of the host whatever calls fail: at most one window, none
    before readiness; the continuation waits at most once and not after
    readiness; ['activate'] has no listener before readiness and at most one
    after it; ['window-all-closed'] has at most one. *)
Definition Bounded (h : Host) : Prop :=
  (length (windows h) ≤ 1)%nat ∧
  (is_ready h = false → windows h = [] ∧ listeners h !! "activate" = None) ∧
  (is_ready h = true → reactions h = []) ∧
  (reactions h = [] ∨ reactions h = [ReadyContinuation]) ∧
  (listeners h !! "activate" = None ∨
   listeners h !! "activate" = Some [ActivateListener]) ∧
  (listeners h !! "window-all-closed" = None ∨
   listeners h !! "window-all-closed" = Some [WindowAllClosedListener]).

(** * Properties *)

(** ** The script at boot *)

Lemma boot_installed p : Installed (boot p).
Proof. vm_compute. split; [reflexivity | split; reflexivity]. Qed.

(** ** One turn of the event loop, case by case *)

Ltac open_host h :=
  destruct h; unfold Reliable in *; simpl in *; subst.

Lemma step_terminated s h : terminated h = true → step s h = h.
Proof. intros Ht. unfold step. now rewrite Ht. Qed.

Lemma run_terminated ss h : terminated h = true → run ss h = h.
Proof.
  induction ss as [|s ss IH]; intros Ht; [reflexivity|].
  simpl. rewrite (step_terminated s h Ht). exact (IH Ht).
Qed.

Lemma emit_closed_darwin h :
  Installed h → platform h = "darwin" →
  emit "window-all-closed" h = set_inputs (inputs h ++ [Fired "window-all-closed"]) h.
Proof.
  intros [Hw _] Hp. unfold emit. cbn [listeners set_inputs].
  rewrite Hw. open_host h. reflexivity.
Qed.

Lemma emit_closed_other h :
  Installed h → Reliable h → platform h ≠ "darwin" →
  emit "window-all-closed" h =
  mkHost (platform h) (is_ready h) (reactions h) (listeners h) [] (next_id h)
         true [] (calls h ++ [CallQuit])
         (inputs h ++ [Fired "window-all-closed"]) (uncaught h).
Proof.
  intros [Hw _] Hr Hp. unfold emit. cbn [listeners set_inputs].
  rewrite Hw. open_host h.
  unfold bind, process_platform, gets. simpl.
  destruct (String.eqb_spec platform0 "darwin") as [E|_]; [contradiction|].
  reflexivity.
Qed.

Lemma emit_activate_unready h :
  Installed h → is_ready h = false →
  emit "activate" h = set_inputs (inputs h ++ [Fired "activate"]) h.
Proof.
  intros [_ Ha] Hr. rewrite Hr in Ha. destruct Ha as [_ Ha].
  unfold emit. cbn [listeners set_inputs]. now rewrite Ha.
Qed.

Lemma emit_activate_zero h :
  Installed h → Reliable h → is_ready h = true → windows h = [] →
  emit "activate" h =
  mkHost (platform h) true (reactions h) (listeners h)
         [mkWindow (next_id h) shell_options (Some shell_document)] (S (next_id h))
         (terminated h) []
         (calls h ++ [CallGetAllWindows; CallNewBrowserWindow shell_options;
                      CallLoadFile (next_id h) shell_document])
         (inputs h ++ [Fired "activate"; Counted 0]) (uncaught h).
Proof.
  intros [_ Ha] Hr Hy Hw. rewrite Hy in Ha. destruct Ha as [_ Ha].
  unfold emit. cbn [listeners set_inputs]. rewrite Ha.
  open_host h. unfold bind. simpl. rewrite Nat.eqb_refl, <- !app_assoc.
  reflexivity.
Qed.

Lemma emit_activate_open h w ws :
  Installed h → Reliable h → is_ready h = true → windows h = w :: ws →
  emit "activate" h =
  set_inputs (inputs h ++ [Fired "activate"; Counted (length (w :: ws))])
             (set_calls (calls h ++ [CallGetAllWindows]) h).
Proof.
  intros [_ Ha] Hr Hy Hw. rewrite Hy in Ha. destruct Ha as [_ Ha].
  unfold emit. cbn [listeners set_inputs]. rewrite Ha.
  open_host h. unfold bind. simpl. rewrite <- !app_assoc.
  reflexivity.
Qed.

Lemma fulfil_ready_empty h :
  Installed h → Reliable h → is_ready h = false → windows h = [] →
  fulfil_ready h =
  mkHost (platform h) true []
         (<["activate" := [ActivateListener]]> (listeners h))
         [mkWindow (next_id h) shell_options (Some shell_document)] (S (next_id h))
         (terminated h) []
         (calls h ++ [CallNewBrowserWindow shell_options;
                      CallLoadFile (next_id h) shell_document;
                      CallOn "activate" ActivateListener])
         (inputs h ++ [Fired "ready"]) (uncaught h).
Proof.
  intros [_ Ha] Hr Hy Hw. rewrite Hy in Ha. destruct Ha as [Hc Ha].
  unfold fulfil_ready. rewrite Hc.
  open_host h. unfold bind. simpl. rewrite Ha, Nat.eqb_refl, <- !app_assoc.
  reflexivity.
Qed.

(** ** The invariant of the lifecycle *)

Lemma Installed_ext h h' :
  listeners h' = listeners h → is_ready h' = is_ready h → reactions h' = reactions h →
  Installed h → Installed h'.
Proof. unfold Installed. intros -> -> ->. trivial. Qed.

Lemma close_window_cases win h :
  (length (windows h) ≤ 1)%nat →
  close_window win h = h ∨
  ∃ w, windows h = [w] ∧ win_id w = win ∧
       close_window win h = emit "window-all-closed" (set_windows [] h).
Proof.
  intros Hl. unfold close_window.
  destruct (windows h) as [|w [|w' ws]] eqn:Hw; simpl in Hl; [now left| |lia].
  simpl. destruct (Nat.eqb_spec (win_id w) win) as [E|N]; [|now left].
  right. exists w. repeat split; [assumption|].
  cbn [windows set_windows]. rewrite filter_cons, decide_False by (intros N; now apply N).
  reflexivity.
Qed.

Lemma commands_app h h' l :
  calls h' = calls h ++ l → commands h' = commands h ++ omap command_of l.
Proof. unfold commands. intros ->. apply omap_app. Qed.

Lemma created_app h h' l :
  calls h' = calls h ++ l →
  created h' = created h + length (List.filter is_create (omap command_of l)).
Proof.
  intros E. unfold created. rewrite (commands_app h h' l E).
  now rewrite List.filter_app, length_app.
Qed.

Lemma quits_app h h' l :
  calls h' = calls h ++ l →
  quits h' = quits h + length (List.filter is_quit (omap command_of l)).
Proof.
  intros E. unfold quits. rewrite (commands_app h h' l E).
  now rewrite List.filter_app, length_app.
Qed.

Lemma boot_lifecycle p : Lifecycle (boot p).
Proof.
  split; [apply boot_installed|]. split; [reflexivity|]. split; [simpl; lia|].
  split; [intros _; repeat split; reflexivity|]. split; [reflexivity|].
  intros _. reflexivity.
Qed.

Ltac same_registrations Hi :=
  eapply Installed_ext; [| | |exact Hi]; simpl; congruence.

Lemma step_lifecycle s h : Lifecycle h → Lifecycle (step s h).
Proof.
  intros Hh. pose proof Hh as (Hi & Hr & Hl & Hu & Hq & Hd). unfold step.
  destruct (terminated h) eqn:Ht; [exact Hh|].
  destruct s as [| |win].
  - destruct (is_ready h) eqn:Hy; [exact Hh|].
    destruct (Hu eq_refl) as (Hw & _ & _).
    rewrite (fulfil_ready_empty h Hi Hr Hy Hw).
    destruct Hi as [Hc _].
    split; [split; [|split]|]; simpl.
    + rewrite lookup_insert_ne by discriminate. exact Hc.
    + reflexivity.
    + apply lookup_insert_eq.
    + split; [reflexivity|]. split; [lia|]. split; [discriminate|].
      rewrite Ht. split; [|exact Hd].
      erewrite quits_app by reflexivity. simpl. lia.
  - destruct (is_ready h) eqn:Hy.
    + destruct (windows h) as [|w ws] eqn:Hw.
      * rewrite (emit_activate_zero h Hi Hr Hy Hw).
        split; [same_registrations Hi|]. simpl.
        split; [reflexivity|]. split; [lia|]. split; [discriminate|].
        rewrite Ht. split; [|exact Hd].
        erewrite quits_app by reflexivity. simpl. lia.
      * rewrite (emit_activate_open h w ws Hi Hr Hy Hw).
        split; [same_registrations Hi|]. simpl.
        split; [exact Hr|]. rewrite Hw, Hy, Ht. split; [exact Hl|].
        split; [discriminate|]. split; [|exact Hd].
        erewrite quits_app by reflexivity. simpl. lia.
    + rewrite (emit_activate_unready h Hi Hy).
      split; [same_registrations Hi|]. simpl.
      split; [exact Hr|]. split; [exact Hl|]. rewrite Hy, Ht.
      split; [exact Hu|]. split; [exact Hq|exact Hd].
  - destruct (close_window_cases win h Hl) as [E|(w & Hw & _ & E)]; rewrite E.
    + exact Hh.
    + assert (Hy : is_ready h = true).
      { destruct (is_ready h); [reflexivity|]. destruct (Hu eq_refl); congruence. }
      assert (Hi' : Installed (set_windows [] h)) by same_registrations Hi.
      destruct (String.eqb_spec (platform h) "darwin") as [Hp|Hp].
      * rewrite (emit_closed_darwin _ Hi' Hp).
        split; [same_registrations Hi|]. simpl.
        split; [exact Hr|]. split; [lia|]. rewrite Hy, Ht.
        split; [discriminate|]. split; [exact Hq|exact Hd].
      * rewrite (emit_closed_other _ Hi' Hr Hp).
        split; [same_registrations Hi|]. simpl.
        split; [reflexivity|]. split; [lia|]. rewrite Hy.
        split; [discriminate|]. split; [|contradiction].
        erewrite quits_app by reflexivity. simpl. lia.
Qed.

Lemma run_lifecycle ss h : Lifecycle h → Lifecycle (run ss h).
Proof.
  revert h. induction ss as [|s ss IH]; intros h Hh; [exact Hh|].
  simpl. apply IH, step_lifecycle, Hh.
Qed.

Lemma reachable_lifecycle p ss : Lifecycle (run ss (boot p)).
Proof. apply run_lifecycle, boot_lifecycle. Qed.

(** ** What a turn does to the windows and to the commands *)

Lemma step_ready_stays s h : Lifecycle h → is_ready h = true → is_ready (step s h) = true.
Proof.
  intros (Hi & Hr & Hl & Hu & _ & _) Hy. unfold step.
  destruct (terminated h); [exact Hy|].
  destruct s as [| |win].
  - now rewrite Hy.
  - destruct (windows h) as [|w ws] eqn:Hw.
    + now rewrite (emit_activate_zero h Hi Hr Hy Hw).
    + now rewrite (emit_activate_open h w ws Hi Hr Hy Hw).
  - destruct (close_window_cases win h Hl) as [E|(w & Hw & _ & E)]; rewrite E; [exact Hy|].
    assert (Hi' : Installed (set_windows [] h)) by same_registrations Hi.
    destruct (String.eqb_spec (platform h) "darwin") as [Hp|Hp].
    + now rewrite (emit_closed_darwin _ Hi' Hp).
    + now rewrite (emit_closed_other _ Hi' Hr Hp).
Qed.

Lemma run_ready_stays ss h : Lifecycle h → is_ready h = true → is_ready (run ss h) = true.
Proof.
  revert h. induction ss as [|s ss IH]; intros h Hh Hy; [exact Hy|].
  simpl. apply IH; [now apply step_lifecycle|now apply step_ready_stays].
Qed.

Lemma step_reactivate_zero h :
  Lifecycle h → terminated h = false → is_ready h = true → windows h = [] →
  step Reactivate h =
  mkHost (platform h) true (reactions h) (listeners h)
         [mkWindow (next_id h) shell_options (Some shell_document)] (S (next_id h))
         false []
         (calls h ++ [CallGetAllWindows; CallNewBrowserWindow shell_options;
                      CallLoadFile (next_id h) shell_document])
         (inputs h ++ [Fired "activate"; Counted 0]) (uncaught h).
Proof.
  intros (Hi & Hr & _) Ht Hy Hw. unfold step. rewrite Ht.
  rewrite (emit_activate_zero h Hi Hr Hy Hw). now rewrite Ht.
Qed.

Lemma step_reactivate_open h :
  Lifecycle h → windows h ≠ [] →
  windows (step Reactivate h) = windows h ∧
  commands (step Reactivate h) = commands h.
Proof.
  intros (Hi & Hr & _ & Hu & _) Hw. unfold step.
  destruct (terminated h); [now split|].
  destruct (is_ready h) eqn:Hy.
  - destruct (windows h) as [|w ws] eqn:E; [contradiction|].
    rewrite (emit_activate_open h w ws Hi Hr Hy E). split; [exact E|].
    erewrite commands_app by reflexivity. simpl. apply app_nil_r.
  - rewrite (emit_activate_unready h Hi Hy). now split.
Qed.

Lemma step_closes_commands win h :
  Lifecycle h →
  commands (step (UserCloses win) h) = commands h ∨
  terminated h = false ∧ platform h ≠ "darwin" ∧
  commands (step (UserCloses win) h) = commands h ++ [QuitProcess].
Proof.
  intros (Hi & Hr & Hl & _). unfold step.
  destruct (terminated h) eqn:Ht; [now left|].
  destruct (close_window_cases win h Hl) as [E|(w & Hw & _ & E)]; rewrite E; [now left|].
  assert (Hi' : Installed (set_windows [] h)) by same_registrations Hi.
  destruct (String.eqb_spec (platform h) "darwin") as [Hp|Hp].
  - rewrite (emit_closed_darwin _ Hi' Hp). now left.
  - rewrite (emit_closed_other _ Hi' Hr Hp). right.
    split; [reflexivity|]. split; [exact Hp|].
    now erewrite commands_app by reflexivity.
Qed.

Lemma step_closes_created win h :
  Lifecycle h → created (step (UserCloses win) h) = created h.
Proof.
  intros Hh. unfold created.
  destruct (step_closes_commands win h Hh) as [->|(_ & _ & ->)]; [reflexivity|].
  rewrite List.filter_app, length_app. simpl. lia.
Qed.

Lemma activations_at_zero_split pre s post h :
  activations_at_zero (pre ++ s :: post) h →
  s = Reactivate → terminated (run pre h) = false ∧ windows (run pre h) = [].
Proof.
  revert h. induction pre as [|s' pre IH]; intros h; simpl.
  - intros [H _]. exact H.
  - intros [_ H]. apply IH, H.
Qed.

Lemma created_at_zero ss h :
  Lifecycle h → is_ready h = true → activations_at_zero ss h →
  created (run ss h) = created h + length (List.filter is_reactivate ss).
Proof.
  revert h. induction ss as [|s ss IH]; intros h Hh Hy; simpl; [lia|].
  intros [Hs Hz].
  rewrite (IH (step s h) (step_lifecycle s h Hh) (step_ready_stays s h Hh Hy) Hz).
  destruct s as [| |win]; simpl.
  - unfold step. rewrite Hy. destruct (terminated h); lia.
  - destruct (Hs eq_refl) as [Ht Hw].
    rewrite (step_reactivate_zero h Hh Ht Hy Hw).
    erewrite created_app by reflexivity. simpl. lia.
  - rewrite (step_closes_created win h Hh). lia.
Qed.

(** ** What no callback touches *)

Ltac split_cases :=
  repeat (simpl;
          match goal with
          | |- context [match ?x with _ => _ end] => is_var x; destruct x
          | |- context [length ?l] => is_var l; destruct l
          | |- context [String.eqb ?a ?b] => destruct (String.eqb a b)
          end).

Ltac unfold_script :=
  unfold run_callback, main, createWindow, BrowserWindow_new, BrowserWindow_loadFile,
    BrowserWindow_getAllWindows, app_quit, app_on, app_whenReady_then,
    process_platform, bind, call, gets, modify, ret; simpl.

Ltac unfold_script_in H :=
  unfold run_callback, main, createWindow, BrowserWindow_new, BrowserWindow_loadFile,
    BrowserWindow_getAllWindows, app_quit, app_on, app_whenReady_then,
    process_platform, bind, call, gets, modify, ret in H; simpl in H.

Lemma run_callback_platform cb h : platform (snd (run_callback cb h)) = platform h.
Proof. destruct cb; destruct h; unfold_script; split_cases; reflexivity. Qed.

Lemma dispatch_platform cbs h : platform (dispatch cbs h) = platform h.
Proof.
  revert h. induction cbs as [|cb cbs IH]; intros h; simpl; [reflexivity|].
  pose proof (run_callback_platform cb h) as E.
  destruct (run_callback cb h) as [[u|e] h']; simpl in E; [now rewrite IH|exact E].
Qed.

Lemma settle_platform cbs h : platform (settle cbs h) = platform h.
Proof.
  revert h. induction cbs as [|cb cbs IH]; intros h; simpl; [reflexivity|].
  pose proof (run_callback_platform cb h) as E.
  destruct (run_callback cb h) as [[u|e] h']; simpl in E; now rewrite IH.
Qed.

Lemma step_platform s h : platform (step s h) = platform h.
Proof.
  unfold step. destruct (terminated h); [reflexivity|].
  destruct s as [| |win].
  - destruct (is_ready h); [reflexivity|]. unfold fulfil_ready.
    now rewrite settle_platform.
  - unfold emit. now rewrite dispatch_platform.
  - unfold close_window. destruct (existsb _ _); [|reflexivity].
    cbn [windows set_windows]. destruct (filter _ _); [|reflexivity].
    unfold emit. now rewrite dispatch_platform.
Qed.

Lemma run_platform ss h : platform (run ss h) = platform h.
Proof.
  revert h. induction ss as [|s ss IH]; intros h; [reflexivity|].
  simpl. now rewrite IH, step_platform.
Qed.

Lemma reachable_platform p ss : platform (run ss (boot p)) = p.
Proof. now rewrite run_platform. Qed.

Lemma close_last_window h w :
  windows h = [w] →
  close_window (win_id w) h = emit "window-all-closed" (set_windows [] h).
Proof.
  intros Hw. unfold close_window. rewrite Hw. simpl.
  rewrite Nat.eqb_refl. simpl.
  rewrite filter_cons, decide_False by (intros N; now apply N).
  reflexivity.
Qed.

(** ** Readiness *)

(** C1. When the host becomes ready, in any state the script can reach
    before readiness, the continuation of [app.whenReady()] leaves exactly
    one window, of width 800 and height 600, holding the document
    ['dist/index.html']; the commands issued since the start of the process
    are exactly one create-window and one load-document for that path; and
    a further firing of readiness does nothing. *)
Theorem ready_creates_one_window p ss :
  is_ready (run ss (boot p)) = false →
  let h := run ss (boot p) in
  let h' := step HostReady h in
  windows h' =
    [mkWindow (next_id h)
       {| width := 800; height := 600;
          webPreferences := {| preload := path_join __dirname "preload.js" |} |}
       (Some "dist/index.html")] ∧
  calls h' = calls h ++
    [CallNewBrowserWindow
       {| width := 800; height := 600;
          webPreferences := {| preload := path_join __dirname "preload.js" |} |};
     CallLoadFile (next_id h) "dist/index.html";
     CallOn "activate" ActivateListener] ∧
  commands h' =
    [CreateWindow
       {| width := 800; height := 600;
          webPreferences := {| preload := path_join __dirname "preload.js" |} |};
     LoadDocument "dist/index.html"] ∧
  created h' = 1 ∧
  step HostReady h' = h'.
Proof.
  intros Hy h h'.
  destruct (reachable_lifecycle p ss) as (Hi & Hr & _ & Hu & _ & _).
  destruct (Hu Hy) as (Hw & Ht & Hc).
  assert (E : h' = fulfil_ready h).
  { unfold h', step. fold h. unfold h in Ht, Hy |- *. now rewrite Ht, Hy. }
  rewrite (fulfil_ready_empty h Hi Hr Hy Hw) in E.
  assert (Hcalls : calls h' = calls h ++
            [CallNewBrowserWindow shell_options;
             CallLoadFile (next_id h) shell_document;
             CallOn "activate" ActivateListener]) by now rewrite E.
  assert (Hcmd : commands h' =
            [CreateWindow shell_options; LoadDocument shell_document]).
  { rewrite (commands_app h h' _ Hcalls). fold h in Hc. now rewrite Hc. }
  split; [now rewrite E|]. split; [exact Hcalls|]. split; [exact Hcmd|].
  split.
  - unfold created. now rewrite Hcmd.
  - unfold step. rewrite E. simpl. now destruct (terminated h).
Qed.

(** ** Reactivation *)

(** C2. Take any sequence of turns, from any state the script can reach
    after readiness, in which every reactivation finds the process running
    with no open window.  Then the number of windows asked for grows by
    exactly the number of reactivations; each reactivation leaves exactly one
    window, created by one create-window call followed by one load-document
    call; and that window has the configuration of the window created on
    readiness. *)
Theorem activation_without_window_creates_one p ss0 ss :
  is_ready (run ss0 (boot p)) = true →
  activations_at_zero ss (run ss0 (boot p)) →
  let h := run ss0 (boot p) in
  created (run ss h) = created h + length (List.filter is_reactivate ss) ∧
  ∀ pre post, ss = pre ++ Reactivate :: post →
    let h1 := run pre h in
    let h2 := step Reactivate h1 in
    windows h2 = [mkWindow (next_id h1) shell_options (Some shell_document)] ∧
    calls h2 = calls h1 ++ [CallGetAllWindows; CallNewBrowserWindow shell_options;
                            CallLoadFile (next_id h1) shell_document] ∧
    created h2 = created h1 + 1 ∧
    map config (windows h2) = map config (windows (step HostReady (boot p))).
Proof.
  intros Hy Hz h.
  pose proof (reachable_lifecycle p ss0) as Hh. fold h in Hh, Hy, Hz.
  split; [now apply created_at_zero|].
  intros pre post -> h1 h2.
  destruct (activations_at_zero_split pre Reactivate post h Hz eq_refl) as [Ht Hw].
  fold h1 in Ht, Hw.
  assert (Hh1 : Lifecycle h1) by now apply run_lifecycle.
  assert (Hy1 : is_ready h1 = true) by now apply run_ready_stays.
  unfold h2. rewrite (step_reactivate_zero h1 Hh1 Ht Hy1 Hw). simpl.
  split; [reflexivity|]. split; [reflexivity|]. split.
  - erewrite created_app by reflexivity. reflexivity.
  - reflexivity.
Qed.

(** C3. A reactivation that finds a window open, in any state the script can
    reach, leaves the window set as it was and issues no command: no window
    is asked for, and reactivating again changes nothing either. *)
Theorem activation_with_window_is_noop p ss :
  windows (run ss (boot p)) ≠ [] →
  let h := run ss (boot p) in
  let h' := step Reactivate h in
  windows h' = windows h ∧
  commands h' = commands h ∧
  created h' = created h ∧
  windows (step Reactivate h') = windows h'.
Proof.
  intros Hw h h'.
  pose proof (reachable_lifecycle p ss) as Hh. fold h in Hh, Hw.
  destruct (step_reactivate_open h Hh Hw) as [E1 E2]. fold h' in E1, E2.
  split; [exact E1|]. split; [exact E2|]. split.
  - unfold created. now rewrite E2.
  - apply step_reactivate_open; [now apply step_lifecycle|]. fold h'. now rewrite E1.
Qed.

(** ** The closing of the last window *)

(** C4. Off darwin, in any state the script can reach with the process
    running and one window open, the closing of that window fires
    ['window-all-closed'] once, and the listener issues the quit call
    exactly once: no quit had been issued before, the process has then
    exited, and whatever the host or the user does afterwards leaves the
    state, and so the number of quits, as it is. *)
Theorem last_window_closed_quits_once p ss w :
  p ≠ "darwin" →
  terminated (run ss (boot p)) = false →
  windows (run ss (boot p)) = [w] →
  let h := run ss (boot p) in
  let h' := step (UserCloses (win_id w)) h in
  inputs h' = inputs h ++ [Fired "window-all-closed"] ∧
  calls h' = calls h ++ [CallQuit] ∧
  quits h = 0 ∧
  quits h' = 1 ∧
  terminated h' = true ∧
  ∀ ss', run ss' h' = h' ∧ quits (run ss' h') = 1.
Proof.
  intros Hp Ht Hw h h'.
  pose proof (reachable_lifecycle p ss) as Hh. fold h in Hh, Ht, Hw.
  pose proof Hh as (Hi & Hr & _ & _ & Hq & _).
  assert (Hi' : Installed (set_windows [] h)) by same_registrations Hi.
  assert (Hp' : platform (set_windows [] h) ≠ "darwin").
  { simpl. unfold h. now rewrite reachable_platform. }
  assert (E : h' = emit "window-all-closed" (set_windows [] h)).
  { unfold h', step. rewrite Ht. now apply close_last_window. }
  rewrite (emit_closed_other _ Hi' Hr Hp') in E. simpl in E.
  rewrite Ht in Hq.
  assert (Hq' : quits h' = 1).
  { rewrite (quits_app h h' [CallQuit]) by now rewrite E. rewrite Hq. reflexivity. }
  split; [now rewrite E|]. split; [now rewrite E|]. split; [exact Hq|].
  split; [exact Hq'|]. split; [now rewrite E|].
  intros ss'. rewrite run_terminated by now rewrite E. now split.
Qed.

(** C5. On darwin the process never exits and no quit call is ever issued,
    in any state the script can reach.  When the one open window is closed,
    ['window-all-closed'] fires, the listener makes no call, and the process
    runs on with no window; a later reactivation then opens one. *)
Theorem darwin_never_quits ss :
  let h := run ss (boot "darwin") in
  terminated h = false ∧
  quits h = 0 ∧
  ∀ w, windows h = [w] →
    let h' := step (UserCloses (win_id w)) h in
    inputs h' = inputs h ++ [Fired "window-all-closed"] ∧
    calls h' = calls h ∧
    terminated h' = false ∧
    windows h' = [] ∧
    length (windows (step Reactivate h')) = 1.
Proof.
  intros h.
  pose proof (reachable_lifecycle "darwin" ss) as Hh. fold h in Hh.
  pose proof Hh as (Hi & Hr & _ & Hu & Hq & Hd).
  assert (Hp : platform h = "darwin") by apply reachable_platform.
  assert (Ht : terminated h = false) by exact (Hd Hp).
  rewrite Ht in Hq.
  split; [exact Ht|]. split; [exact Hq|].
  intros w Hw h'.
  assert (Hy : is_ready h = true).
  { destruct (is_ready h); [reflexivity|]. destruct (Hu eq_refl); congruence. }
  assert (Hi' : Installed (set_windows [] h)) by same_registrations Hi.
  assert (E : h' = emit "window-all-closed" (set_windows [] h)).
  { unfold h', step. rewrite Ht. now apply close_last_window. }
  rewrite (emit_closed_darwin _ Hi' Hp) in E. simpl in E.
  assert (Hh' : Lifecycle h') by apply step_lifecycle, Hh.
  split; [now rewrite E|]. split; [now rewrite E|]. split; [now rewrite E|].
  split; [now rewrite E|].
  rewrite (step_reactivate_zero h' Hh'); [reflexivity| | |]; now rewrite E.
Qed.

(** ** The invariant *)

(** C6. In every state the script can reach: at most one window is open;
    while a window is open no turn of the event loop, whichever it is, asks
    for another window; and when the process is running and ready, the
    window set is not empty right after the ['activate'] listener has
    run. *)
Theorem window_after_activation_and_no_duplicate p ss :
  let h := run ss (boot p) in
  (length (windows h) ≤ 1)%nat ∧
  (∀ s, windows h ≠ [] →
        created (step s h) = created h ∧ (length (windows (step s h)) ≤ 1)%nat) ∧
  (is_ready h = true → terminated h = false → windows (step Reactivate h) ≠ []).
Proof.
  intros h.
  pose proof (reachable_lifecycle p ss) as Hh. fold h in Hh.
  pose proof Hh as (Hi & Hr & Hl & Hu & _ & _).
  split; [exact Hl|]. split.
  - intros s Hw. split; [|apply (step_lifecycle s h Hh)].
    destruct s as [| |win].
    + assert (Hy : is_ready h = true).
      { destruct (is_ready h); [reflexivity|]. destruct (Hu eq_refl); congruence. }
      unfold step. rewrite Hy. now destruct (terminated h).
    + unfold created. now destruct (step_reactivate_open h Hh Hw) as [_ ->].
    + apply step_closes_created, Hh.
  - intros Hy Ht. destruct (windows h) as [|w ws] eqn:Hw.
    + now rewrite (step_reactivate_zero h Hh Ht Hy Hw).
    + destruct (step_reactivate_open h Hh) as [-> _]; rewrite Hw; discriminate.
Qed.

(** ** Reactivation before readiness *)

(** C8. In every state the script can reach before readiness, ['activate']
    has no listener and there is no window; a reactivation then leaves the
    window set and the calls as they were, so no window has been asked for;
    the listener appears with the turn in which the host becomes ready. *)
Theorem activation_before_ready_is_ignored p ss :
  is_ready (run ss (boot p)) = false →
  let h := run ss (boot p) in
  listeners h !! "activate" = None ∧
  windows h = [] ∧
  windows (step Reactivate h) = windows h ∧
  calls (step Reactivate h) = calls h ∧
  created (step Reactivate h) = 0 ∧
  listeners (step HostReady h) !! "activate" = Some [ActivateListener].
Proof.
  intros Hy h. fold h in Hy.
  pose proof (reachable_lifecycle p ss) as Hh. fold h in Hh.
  pose proof Hh as (Hi & Hr & _ & Hu & _ & _).
  destruct (Hu Hy) as (Hw & Ht & Hc).
  assert (Ha : listeners h !! "activate" = None).
  { destruct Hi as [_ Hi]. rewrite Hy in Hi. apply Hi. }
  assert (E : step Reactivate h = set_inputs (inputs h ++ [Fired "activate"]) h).
  { unfold step. rewrite Ht. now apply emit_activate_unready. }
  split; [exact Ha|]. split; [exact Hw|]. rewrite E.
  split; [reflexivity|]. split; [reflexivity|]. split.
  - unfold created, commands. simpl. fold (commands h). now rewrite Hc.
  - unfold step. rewrite Ht, Hy, (fulfil_ready_empty h Hi Hr Hy Hw). simpl.
    apply lookup_insert_eq.
Qed.

(** ** Determinism *)

Lemma not_darwin p : p ≠ "darwin" → String.eqb p "darwin" = false.
Proof. intros N. now destruct (String.eqb_spec p "darwin"). Qed.

Lemma step_responds s h :
  Lifecycle h →
  ∃ new, inputs (step s h) = inputs h ++ new ∧
         commands (step s h) =
           commands h ++ List.flat_map (response (platform h)) new.
Proof.
  intros (Hi & Hr & Hl & Hu & _ & _). unfold step.
  destruct (terminated h) eqn:Ht; [exists []; now rewrite !app_nil_r|].
  destruct s as [| |win].
  - destruct (is_ready h) eqn:Hy; [exists []; now rewrite !app_nil_r|].
    destruct (Hu eq_refl) as (Hw & _ & _).
    rewrite (fulfil_ready_empty h Hi Hr Hy Hw).
    exists [Fired "ready"]. split; [reflexivity|].
    now erewrite commands_app by reflexivity.
  - destruct (is_ready h) eqn:Hy.
    + destruct (windows h) as [|w ws] eqn:Hw.
      * rewrite (emit_activate_zero h Hi Hr Hy Hw).
        exists [Fired "activate"; Counted 0]. split; [reflexivity|].
        now erewrite commands_app by reflexivity.
      * rewrite (emit_activate_open h w ws Hi Hr Hy Hw).
        exists [Fired "activate"; Counted (length (w :: ws))]. split; [reflexivity|].
        now erewrite commands_app by reflexivity.
    + rewrite (emit_activate_unready h Hi Hy).
      exists [Fired "activate"]. split; [reflexivity|].
      simpl. now rewrite app_nil_r.
  - destruct (close_window_cases win h Hl) as [E|(w & Hw & _ & E)]; rewrite E;
      [exists []; now rewrite !app_nil_r|].
    assert (Hi' : Installed (set_windows [] h)) by same_registrations Hi.
    exists [Fired "window-all-closed"].
    destruct (String.eqb_spec (platform h) "darwin") as [Hp|Hp].
    + rewrite (emit_closed_darwin _ Hi' Hp). split; [reflexivity|].
      simpl. rewrite Hp. simpl. now rewrite app_nil_r.
    + rewrite (emit_closed_other _ Hi' Hr Hp). split; [reflexivity|].
      erewrite commands_app by reflexivity.
      simpl. now rewrite (not_darwin _ Hp).
Qed.

Lemma run_responds ss h :
  Lifecycle h →
  ∃ new, inputs (run ss h) = inputs h ++ new ∧
         commands (run ss h) =
           commands h ++ List.flat_map (response (platform h)) new.
Proof.
  revert h. induction ss as [|s ss IH]; intros h Hh.
  - exists []. now rewrite !app_nil_r.
  - simpl. destruct (step_responds s h Hh) as (n1 & Ei1 & Ec1).
    destruct (IH (step s h) (step_lifecycle s h Hh)) as (n2 & Ei2 & Ec2).
    exists (n1 ++ n2). rewrite Ei2, Ec2, Ei1, Ec1, step_platform.
    now rewrite List.flat_map_app, !app_assoc.
Qed.

Lemma commands_of_inputs p ss :
  commands (run ss (boot p)) =
  List.flat_map (response p) (inputs (run ss (boot p))).
Proof.
  destruct (run_responds ss (boot p) (boot_lifecycle p)) as (new & Ei & Ec).
  rewrite Ec, Ei. reflexivity.
Qed.

(** C9. Two runs of the script on the same platform in which the host hands
    over the same sequence of inputs, the events it fires and the window
    counts it answers, issue the same sequence of commands, whatever the
    turns that produced those inputs. *)
Theorem commands_determined_by_inputs p ss1 ss2 :
  inputs (run ss1 (boot p)) = inputs (run ss2 (boot p)) →
  commands (run ss1 (boot p)) = commands (run ss2 (boot p)).
Proof. intros E. rewrite !commands_of_inputs. now rewrite E. Qed.

(** ** The options of every window *)

Lemma Uniform_ext h h' :
  calls h' = calls h → windows h' = windows h → Uniform h → Uniform h'.
Proof. unfold Uniform. intros -> ->. trivial. Qed.

Lemma keeps_ret {A} (a : A) : keeps (ret a).
Proof. intros h Hh. exact Hh. Qed.

Lemma keeps_gets {A} (f : Host → A) : keeps (gets f).
Proof. intros h Hh. exact Hh. Qed.

Lemma keeps_modify f : (∀ h, Uniform h → Uniform (f h)) → keeps (modify f).
Proof. intros Hf h Hh. apply Hf, Hh. Qed.

Lemma keeps_bind {A B} (m : M A) (k : A → M B) :
  keeps m → (∀ a, keeps (k a)) → keeps (bind m k).
Proof.
  intros Hm Hk h Hh. unfold bind. specialize (Hm h Hh).
  destruct (m h) as [[a|e] h']; simpl in Hm; [apply Hk, Hm|exact Hm].
Qed.

Lemma keeps_call c :
  (∀ o, c = CallNewBrowserWindow o → o = shell_options) → keeps (call c).
Proof.
  intros Hc h [H1 H2]. unfold call.
  assert (Uniform (set_calls (calls h ++ [c]) h)).
  { split; [|exact H2]. simpl. apply Forall_app. split; [exact H1|].
    now apply Forall_singleton. }
  destruct (outcomes h) as [|[e|] plan]; simpl;
    try assumption; eapply Uniform_ext; try eassumption; reflexivity.
Qed.

Lemma keeps_createWindow : keeps createWindow.
Proof.
  unfold createWindow. apply keeps_bind.
  - unfold BrowserWindow_new.
    repeat first [apply keeps_bind; [|intros ?] | apply keeps_ret | apply keeps_gets].
    + apply keeps_call. now intros o [= <-].
    + apply keeps_modify. intros h [H1 H2]. split; [exact H1|]. simpl.
      apply Forall_app. split; [exact H2|]. now apply Forall_singleton.
  - intros win. unfold BrowserWindow_loadFile. apply keeps_bind; [|intros ?].
    + apply keeps_call. discriminate.
    + apply keeps_modify. intros h [H1 H2]. split; [exact H1|]. simpl.
      apply Forall_map. eapply Forall_impl; [exact H2|].
      intros w Hw. simpl. now destruct (Nat.eqb (win_id w) win).
Qed.

Lemma keeps_app_on event cb : keeps (app_on event cb).
Proof.
  unfold app_on. apply keeps_bind; [apply keeps_call; discriminate|intros _].
  apply keeps_modify. intros h Hh. eapply Uniform_ext; [| |exact Hh]; reflexivity.
Qed.

Lemma keeps_run_callback cb : keeps (run_callback cb).
Proof.
  destruct cb; simpl.
  - apply keeps_bind; [apply keeps_createWindow|intros _; apply keeps_app_on].
  - apply keeps_bind.
    + unfold BrowserWindow_getAllWindows.
      repeat first [apply keeps_bind; [|intros ?] | apply keeps_ret | apply keeps_gets].
      * apply keeps_call. discriminate.
      * apply keeps_modify. intros h Hh.
        eapply Uniform_ext; [| |exact Hh]; reflexivity.
    + intros all. destruct (Nat.eqb (length all) 0);
        [apply keeps_createWindow|apply keeps_ret].
  - apply keeps_bind; [apply keeps_gets|]. intros p.
    destruct (negb (String.eqb p "darwin")); [|apply keeps_ret].
    unfold app_quit. apply keeps_bind; [apply keeps_call; discriminate|intros _].
    apply keeps_modify. intros h [H1 _]. split; [exact H1|]. simpl. constructor.
Qed.

Lemma keeps_main : keeps main.
Proof.
  unfold main. apply keeps_bind; [|intros _; apply keeps_app_on].
  unfold app_whenReady_then.
  apply keeps_bind; [apply keeps_call; discriminate|intros _].
  apply keeps_modify. intros h Hh. eapply Uniform_ext; [| |exact Hh]; reflexivity.
Qed.

Lemma dispatch_uniform cbs h : Uniform h → Uniform (dispatch cbs h).
Proof.
  revert h. induction cbs as [|cb cbs IH]; intros h Hh; simpl; [exact Hh|].
  pose proof (keeps_run_callback cb h Hh) as Hk.
  destruct (run_callback cb h) as [[u|e] h']; simpl in Hk; [now apply IH|].
  eapply Uniform_ext; [| |exact Hk]; reflexivity.
Qed.

Lemma settle_uniform cbs h : Uniform h → Uniform (settle cbs h).
Proof.
  revert h. induction cbs as [|cb cbs IH]; intros h Hh; simpl; [exact Hh|].
  pose proof (keeps_run_callback cb h Hh) as Hk.
  destruct (run_callback cb h) as [[u|e] h']; simpl in Hk; apply IH; [exact Hk|].
  eapply Uniform_ext; [| |exact Hk]; reflexivity.
Qed.

Lemma emit_uniform event h : Uniform h → Uniform (emit event h).
Proof.
  intros Hh. unfold emit. apply dispatch_uniform.
  eapply Uniform_ext; [| |exact Hh]; reflexivity.
Qed.

Lemma step_uniform s h : Uniform h → Uniform (step s h).
Proof.
  intros Hh. unfold step. destruct (terminated h); [exact Hh|].
  destruct s as [| |win].
  - destruct (is_ready h); [exact Hh|]. unfold fulfil_ready. apply settle_uniform.
    eapply Uniform_ext; [| |exact Hh]; reflexivity.
  - now apply emit_uniform.
  - unfold close_window. destruct (existsb _ _); [|exact Hh].
    assert (Hf : Uniform (set_windows (filter (λ w, win_id w ≠ win) (windows h)) h)).
    { destruct Hh as [H1 H2]. split; [exact H1|]. simpl.
      apply List.Forall_forall. intros w Hw. rewrite <- list_elem_of_In in Hw.
      apply list_elem_of_filter in Hw as [_ Hw].
      rewrite List.Forall_forall in H2. apply H2. now rewrite <- list_elem_of_In. }
    cbn [windows set_windows] in *.
    destruct (filter _ _) eqn:E; [|exact Hf]. now apply emit_uniform.
Qed.

Lemma run_uniform ss h : Uniform h → Uniform (run ss h).
Proof.
  revert h. induction ss as [|s ss IH]; intros h Hh; [exact Hh|].
  simpl. apply IH, step_uniform, Hh.
Qed.

(** C10. In every run, whatever calls the host makes fail, every
    [new BrowserWindow] call of the script, and so every window there is,
    has the same options: width 800, height 600 and the preload script
    [path.join(__dirname, 'preload.js')]. *)
Theorem every_window_has_the_preload p plan ss :
  let h := run ss (boot_with p plan) in
  Forall (λ c, ∀ o, c = CallNewBrowserWindow o →
                    o = {| width := 800; height := 600;
                           webPreferences :=
                             {| preload := path_join __dirname "preload.js" |} |})
         (calls h) ∧
  Forall (λ w, win_options w =
               {| width := 800; height := 600;
                  webPreferences :=
                    {| preload := path_join __dirname "preload.js" |} |})
         (windows h).
Proof.
  intros h. apply (run_uniform ss (boot_with p plan)).
  apply keeps_main. split; constructor.
Qed.

(** ** Failures of the host *)

(** C7. Let the first [n] calls a callback makes succeed and the next one
    throw [e], where the callback, run on the same state with no failure,
    makes more than [n] calls.  Then the callback ends by throwing [e]; the
    calls it has made are exactly the first [n + 1] calls of the run without
    failure, so the failed call is made once and nothing follows it; the
    rest of the plan of outcomes is untouched; and the error reaches the
    host's record of uncaught errors, whether the callback ran as a
    listener or as the continuation of readiness. *)
Theorem host_failure_propagates cb h n e rest :
  outcomes h = replicate n None ++ Some e :: rest →
  n < length (calls_of cb (set_outcomes [] h)) →
  fst (run_callback cb h) = Throw e ∧
  calls_of cb h = take (S n) (calls_of cb (set_outcomes [] h)) ∧
  outcomes (snd (run_callback cb h)) = rest ∧
  uncaught (dispatch [cb] h) = uncaught h ++ [e] ∧
  uncaught (settle [cb] h) = uncaught h ++ [e].
Proof.
  intros Ho Hn. unfold calls_of, calls_since in *.
  destruct cb; destruct h; simpl in Ho; subst.
  - unfold_script_in Hn. rewrite <- !app_assoc, drop_app_length in Hn. simpl in Hn.
    destruct n as [|[|[|n]]]; [| | |lia]; unfold_script;
      rewrite <- ?app_assoc, !drop_app_length; repeat split; reflexivity.
  - destruct windows0 as [|w ws].
    + unfold_script_in Hn. rewrite <- !app_assoc, drop_app_length in Hn. simpl in Hn.
      destruct n as [|[|[|n]]]; [| | |lia]; unfold_script;
        rewrite <- ?app_assoc, !drop_app_length; repeat split; reflexivity.
    + unfold_script_in Hn. rewrite drop_app_length in Hn. simpl in Hn.
      destruct n as [|n]; [|lia]. unfold_script.
      rewrite !drop_app_length. repeat split; reflexivity.
  - unfold_script_in Hn. unfold dispatch, settle. unfold_script.
    destruct (String.eqb platform0 "darwin"); simpl in *.
    + rewrite drop_all in Hn. simpl in Hn. lia.
    + rewrite drop_app_length in Hn. simpl in Hn.
      destruct n as [|n]; [|lia]. simpl.
      rewrite !drop_app_length. repeat split; reflexivity.
Qed.

(** * Further properties of the lifecycle *)

(** ** The turns when no call fails *)

Lemma step_turn s h : Lifecycle h → Turn s h (step s h).
Proof.
  intros (Hi & Hr & Hl & Hu & _ & _). unfold step.
  destruct (terminated h) eqn:Ht; [constructor|].
  assert (Hready : windows h ≠ [] → is_ready h = true).
  { intros Hw. destruct (is_ready h); [reflexivity|].
    destruct (Hu eq_refl) as [E _]. contradiction. }
  destruct s as [| |win].
  - destruct (is_ready h) eqn:Hy; [constructor|].
    destruct (Hu eq_refl) as (Hw & _ & _).
    rewrite (fulfil_ready_empty h Hi Hr Hy Hw). now constructor.
  - destruct (is_ready h) eqn:Hy.
    + destruct (windows h) as [|w [|w' ws]] eqn:Hw; simpl in Hl; [| |lia].
      * rewrite (emit_activate_zero h Hi Hr Hy Hw). now constructor.
      * rewrite (emit_activate_open h w [] Hi Hr Hy Hw). now apply Turn_counted with w.
    + rewrite (emit_activate_unready h Hi Hy). now constructor.
  - destruct (close_window_cases win h Hl) as [E|(w & Hw & <- & E)]; rewrite E;
      [constructor|].
    assert (Hy : is_ready h = true) by (apply Hready; now rewrite Hw).
    assert (Hi' : Installed (set_windows [] h)) by same_registrations Hi.
    destruct (String.eqb_spec (platform h) "darwin") as [Hp|Hp].
    + rewrite (emit_closed_darwin _ Hi' Hp). exact (Turn_stay h w Ht Hy Hw Hp).
    + rewrite (emit_closed_other _ Hi' Hr Hp). exact (Turn_quit h w Ht Hy Hw Hp).
Qed.

(** Induction over the reachable states: what holds at boot and is kept by
    every turn holds after every run. *)
Lemma reachable_ind p (P : Host → Prop) :
  P (boot p) →
  (∀ s h h', Lifecycle h → platform h = p → P h → Turn s h h' → P h') →
  ∀ ss, P (run ss (boot p)).
Proof.
  intros H0 Hstep ss.
  assert (G : ∀ h, Lifecycle h → platform h = p → P h → P (run ss h)).
  { induction ss as [|s ss IH]; intros h Hh Hp Ph; [exact Ph|].
    simpl. apply IH.
    - now apply step_lifecycle.
    - now rewrite step_platform.
    - apply (Hstep s h); try assumption. now apply step_turn. }
  apply G; [apply boot_lifecycle|reflexivity|exact H0].
Qed.

(** X1. When no call fails, every window that is open, in any state the
    script can reach, holds the document ['dist/index.html']: no window is
    left without its document. *)
Theorem every_window_holds_the_document p ss :
  Forall (λ w, win_document w = Some "dist/index.html") (windows (run ss (boot p))).
Proof.
  apply (reachable_ind p (λ h, Forall (λ w, win_document w = Some "dist/index.html")
                                      (windows h))); [constructor|].
  intros s h h' _ _ Ph T. destruct T; simpl; try exact Ph; now repeat constructor.
Qed.

Lemma created_same h h' : calls h' = calls h → created h' = created h.
Proof. unfold created, commands. now intros ->. Qed.

(** X2. Off darwin, when no call fails, the script asks for at most one
    window in the whole life of the process: none before readiness, one from
    then on.  A process that is ready and running has exactly one window
    open, and a process that has exited has none. *)
Theorem one_window_for_life_off_darwin p ss :
  p ≠ "darwin" →
  let h := run ss (boot p) in
  created h = (if is_ready h then 1 else 0) ∧
  (is_ready h = true → terminated h = false → ∃ w, windows h = [w]) ∧
  (terminated h = true → windows h = []).
Proof.
  intros Hp. cbv zeta.
  apply (reachable_ind p (λ h,
           created h = (if is_ready h then 1 else 0) ∧
           (is_ready h = true → terminated h = false → ∃ w, windows h = [w]) ∧
           (terminated h = true → windows h = []))).
  { repeat split; simpl; intros; discriminate. }
  intros s h h' _ Hplat (Hc & Hone & Hnone) T.
  destruct T as [s h|h Ht Hy Hw|h Ht Hy|h Ht Hy Hw|h w Ht Hy Hw|h w Ht Hy Hw Hd|h w Ht Hy Hw Hd];
    simpl.
  - now repeat split.
  - split; [|split; [intros; eexists; reflexivity|congruence]].
    erewrite created_app by reflexivity. rewrite Hc, Hy. reflexivity.
  - rewrite Hy in *. split; [|split; [discriminate|congruence]].
    now rewrite (created_same h) by reflexivity.
  - destruct (Hone Hy Ht) as [w Hw']. congruence.
  - rewrite Hy in *. split; [|split; [intros; eexists; exact Hw|congruence]].
    erewrite created_app by reflexivity. simpl. lia.
  - congruence.
  - rewrite Hy in *. split; [|split; [discriminate|reflexivity]].
    erewrite created_app by reflexivity. simpl. lia.
Qed.

(** X3. When no call fails, the listeners of the application are, in any
    state the script can reach, exactly those [main.js] registers once: the
    listener of ['window-all-closed'], and after readiness the listener of
    ['activate'].  Reactivations and closings add no listener, and the
    continuation of readiness waits exactly until readiness. *)
Theorem listeners_never_accumulate p ss :
  let h := run ss (boot p) in
  listeners h = registered (is_ready h) ∧
  reactions h = (if is_ready h then [] else [ReadyContinuation]).
Proof.
  cbv zeta.
  apply (reachable_ind p (λ h,
           listeners h = registered (is_ready h) ∧
           reactions h = (if is_ready h then [] else [ReadyContinuation]))).
  { split; reflexivity. }
  intros s h h' _ _ [Hl Hc] T.
  destruct T as [s h|h Ht Hy Hw|h Ht Hy|h Ht Hy Hw|h w Ht Hy Hw|h w Ht Hy Hw Hd|h w Ht Hy Hw Hd];
    simpl; rewrite ?Hy in *; try (split; assumption).
  split; [|reflexivity]. now rewrite Hl.
Qed.

(** X4. When no host call fails, no callback throws: in any state the
    script can reach, the host's record of uncaught errors is empty and the
    plan of outcomes is still exhausted. *)
Theorem no_failure_no_throw p ss :
  uncaught (run ss (boot p)) = [] ∧ outcomes (run ss (boot p)) = [].
Proof.
  split; [|apply reachable_lifecycle].
  apply (reachable_ind p (λ h, uncaught h = [])); [reflexivity|].
  intros s h h' _ _ Hu T. destruct T; simpl; exact Hu.
Qed.

(** X5. When no call fails, the commands of a run are the responses to its
    inputs, taken one input at a time and in order: readiness and every
    window count of zero are answered by create-window and load-document,
    every firing of ['window-all-closed'] by quit except on darwin, and
    every other input by nothing.  So the windows asked for are as many as
    the firings of readiness and the counts of zero together. *)
Theorem commands_are_the_responses p ss :
  let h := run ss (boot p) in
  commands h = List.flat_map (response p) (inputs h) ∧
  created h = length (List.filter opens (inputs h)).
Proof.
  cbv zeta. split; [apply commands_of_inputs|].
  unfold created. rewrite commands_of_inputs.
  induction (inputs (run ss (boot p))) as [|i l IH]; [reflexivity|].
  simpl. rewrite List.filter_app, length_app, IH.
  destruct i as [event|[|n]]; simpl; try reflexivity.
  destruct (String.eqb event "ready"); [reflexivity|].
  destruct (String.eqb event "window-all-closed"); [|reflexivity].
  now destruct (String.eqb p "darwin").
Qed.

(** ** The turns when the continuation of readiness fails *)

Lemma emit_activate_nobody h :
  listeners h !! "activate" = None →
  emit "activate" h = set_inputs (inputs h ++ [Fired "activate"]) h.
Proof. intros Ha. unfold emit. cbn [listeners set_inputs]. now rewrite Ha. Qed.

Lemma emit_closed_stays h :
  listeners h !! "window-all-closed" = Some [WindowAllClosedListener] →
  platform h = "darwin" →
  emit "window-all-closed" h = set_inputs (inputs h ++ [Fired "window-all-closed"]) h.
Proof.
  intros Hw Hp. unfold emit. cbn [listeners set_inputs].
  rewrite Hw. open_host h. reflexivity.
Qed.

Lemma emit_closed_quits h :
  listeners h !! "window-all-closed" = Some [WindowAllClosedListener] →
  outcomes h = [] → platform h ≠ "darwin" →
  emit "window-all-closed" h =
  mkHost (platform h) (is_ready h) (reactions h) (listeners h) [] (next_id h)
         true [] (calls h ++ [CallQuit])
         (inputs h ++ [Fired "window-all-closed"]) (uncaught h).
Proof.
  intros Hw Hr Hp. unfold emit. cbn [listeners set_inputs].
  rewrite Hw. open_host h.
  unfold bind, process_platform, gets. simpl.
  destruct (String.eqb_spec platform0 "darwin") as [E|_]; [contradiction|].
  reflexivity.
Qed.

Lemma snoc_two {A} (l : list A) a b : l ++ [a; b] = (l ++ [a]) ++ [b].
Proof. now rewrite <- app_assoc. Qed.

Lemma snoc_three {A} (l : list A) a b c : l ++ [a; b; c] = ((l ++ [a]) ++ [b]) ++ [c].
Proof. now rewrite <- !app_assoc. Qed.

Lemma fulfil_ready_fails_0 e h :
  reactions h = [ReadyContinuation] → outcomes h = [Some e] → windows h = [] →
  fulfil_ready h =
  mkHost (platform h) true [] (listeners h) [] (next_id h) (terminated h) []
         (calls h ++ [CallNewBrowserWindow shell_options])
         (inputs h ++ [Fired "ready"]) (uncaught h ++ [e]).
Proof.
  intros Hc Ho Hw. destruct h; cbn [reactions outcomes windows] in Hc, Ho, Hw; subst.
  reflexivity.
Qed.

Lemma fulfil_ready_fails_1 e h :
  reactions h = [ReadyContinuation] → outcomes h = [None; Some e] → windows h = [] →
  fulfil_ready h =
  mkHost (platform h) true [] (listeners h)
         [mkWindow (next_id h) shell_options None] (S (next_id h)) (terminated h) []
         (calls h ++ [CallNewBrowserWindow shell_options;
                      CallLoadFile (next_id h) shell_document])
         (inputs h ++ [Fired "ready"]) (uncaught h ++ [e]).
Proof.
  intros Hc Ho Hw. destruct h; cbn [reactions outcomes windows] in Hc, Ho, Hw; subst.
  cbn [platform listeners next_id terminated calls inputs uncaught].
  rewrite snoc_two.
  vm_compute; reflexivity.
Qed.

Lemma fulfil_ready_fails_2 e h :
  reactions h = [ReadyContinuation] → outcomes h = [None; None; Some e] →
  windows h = [] →
  fulfil_ready h =
  mkHost (platform h) true [] (listeners h)
         [mkWindow (next_id h) shell_options (Some shell_document)] (S (next_id h))
         (terminated h) []
         (calls h ++ [CallNewBrowserWindow shell_options;
                      CallLoadFile (next_id h) shell_document;
                      CallOn "activate" ActivateListener])
         (inputs h ++ [Fired "ready"]) (uncaught h ++ [e]).
Proof.
  intros Hc Ho Hw. destruct h; cbn [reactions outcomes windows] in Hc, Ho, Hw; subst.
  cbn [platform listeners next_id terminated calls inputs uncaught].
  rewrite snoc_three.
  pose proof (Nat.eqb_refl next_id0) as E.
  vm_compute in E. vm_compute. rewrite E. reflexivity.
Qed.

Lemma fulfil_ready_failing n e h :
  (n ≤ 2)%nat →
  reactions h = [ReadyContinuation] →
  outcomes h = replicate n None ++ [Some e] →
  windows h = [] →
  fulfil_ready h =
  mkHost (platform h) true [] (listeners h)
         (match n with
          | 0 => []
          | 1 => [mkWindow (next_id h) shell_options None]
          | _ => [mkWindow (next_id h) shell_options (Some shell_document)]
          end)
         (match n with 0 => next_id h | _ => S (next_id h) end)
         (terminated h) []
         (calls h ++ take (S n) [CallNewBrowserWindow shell_options;
                                 CallLoadFile (next_id h) shell_document;
                                 CallOn "activate" ActivateListener])
         (inputs h ++ [Fired "ready"]) (uncaught h ++ [e]).
Proof.
  intros Hn Hc Ho Hw. destruct n as [|[|[|n]]]; [| | |lia].
  - exact (fulfil_ready_fails_0 e h Hc Ho Hw).
  - exact (fulfil_ready_fails_1 e h Hc Ho Hw).
  - exact (fulfil_ready_fails_2 e h Hc Ho Hw).
Qed.
Lemma step_crippled n e s h : (n ≤ 2)%nat → Crippled n e h → Crippled n e (step s h).
Proof.
  intros Hn Hh. unfold step.
  destruct (terminated h) eqn:Ht; [exact Hh|].
  pose proof Hh as (Ha & Hc & Hl & H0 & H1 & Hs).
  destruct s as [| |win].
  - destruct (is_ready h) eqn:Hy; [exact Hh|].
    destruct Hs as (Hre & Ho & Hw & Hcmd & _ & Hu).
    rewrite (fulfil_ready_failing n e h Hn Hre Ho Hw).
    assert (Hq : quits h = 0) by (unfold quits; now rewrite Hcmd).
    assert (Hcr : created h = 0) by (unfold created; now rewrite Hcmd).
    unfold Crippled.
    split; [exact Ha|]. split; [exact Hc|].
    destruct n as [|[|[|n]]]; [| | |lia]; simpl.
    + split; [lia|]. split; [|split; [discriminate|]].
      * intros _. repeat split; [exact Ht|].
        erewrite quits_app by reflexivity. rewrite Hq. reflexivity.
      * repeat split; [|now rewrite Hu].
        erewrite created_app by reflexivity. rewrite Hcr. reflexivity.
    + split; [lia|]. split; [discriminate|]. split; [intros _; now repeat constructor|].
      repeat split; [|now rewrite Hu].
      erewrite created_app by reflexivity. rewrite Hcr. reflexivity.
    + split; [lia|]. split; [discriminate|]. split; [discriminate|].
      repeat split; [|now rewrite Hu].
      erewrite created_app by reflexivity. rewrite Hcr. reflexivity.
  - rewrite (emit_activate_nobody h Ha). exact Hh.
  - destruct (close_window_cases win h Hl) as [E|(w & Hw & _ & E)]; rewrite E; [exact Hh|].
    destruct (is_ready h) eqn:Hy;
      [|destruct Hs as (_ & _ & Hw' & _); congruence].
    destruct Hs as (Hre & Ho & Hcr & Hu).
    assert (N0 : n ≠ 0) by (intros ->; destruct (H0 eq_refl); congruence).
    destruct (String.eqb_spec (platform h) "darwin") as [Hp|Hp].
    + rewrite (emit_closed_stays (set_windows [] h) Hc Hp). unfold Crippled. simpl.
      split; [exact Ha|]. split; [exact Hc|]. split; [lia|].
      split; [contradiction|]. split; [constructor|]. rewrite Hy. now repeat split.
    + rewrite (emit_closed_quits (set_windows [] h) Hc Ho Hp). unfold Crippled. simpl.
      split; [exact Ha|]. split; [exact Hc|]. split; [lia|].
      split; [contradiction|]. split; [constructor|]. rewrite Hy.
      repeat split; try assumption.
      erewrite created_app by reflexivity. simpl. lia.
Qed.

Lemma run_crippled n e ss h : (n ≤ 2)%nat → Crippled n e h → Crippled n e (run ss h).
Proof.
  intros Hn. revert h. induction ss as [|s ss IH]; intros h Hh; [exact Hh|].
  simpl. now apply IH, step_crippled.
Qed.

Lemma boot_crippled p n e :
  Crippled n e (boot_with p (None :: None :: replicate n None ++ [Some e])).
Proof.
  repeat split; simpl; try reflexivity; try lia; intros; constructor.
Qed.

(** X6. Let the host make one of the three calls of the continuation of
    readiness throw [e] (the first two outcomes of the plan are those of the
    two registrations at the top of [main.js]).  Then, in every state the
    process can reach, ['activate'] has no listener, a reactivation changes
    neither the windows nor the calls, the script has asked for at most one
    window, and once the host is ready [e] is the one uncaught error. *)
Theorem failed_continuation_disables_reactivation p n e ss :
  (n ≤ 2)%nat →
  let h := run ss (boot_with p (None :: None :: replicate n None ++ [Some e])) in
  listeners h !! "activate" = None ∧
  (created h ≤ 1)%nat ∧
  windows (step Reactivate h) = windows h ∧
  calls (step Reactivate h) = calls h ∧
  (is_ready h = true → uncaught h = [e]).
Proof.
  intros Hn h.
  pose proof (run_crippled n e ss _ Hn (boot_crippled p n e)) as Hh. fold h in Hh.
  destruct Hh as (Ha & _ & _ & _ & _ & Hs).
  split; [exact Ha|]. split.
  { destruct (is_ready h).
    - destruct Hs as (_ & _ & -> & _). lia.
    - destruct Hs as (_ & _ & _ & Hc & _). unfold created. rewrite Hc. simpl. lia. }
  assert (E : step Reactivate h = h ∨
              step Reactivate h = set_inputs (inputs h ++ [Fired "activate"]) h).
  { unfold step. destruct (terminated h); [now left|right].
    now apply emit_activate_nobody. }
  split; [destruct E as [-> | ->]; reflexivity|].
  split; [destruct E as [-> | ->]; reflexivity|].
  intros Hy. rewrite Hy in Hs. apply Hs.
Qed.

(** X7. If the creation of the first window throws, the process never has a
    window, never exits and never asks to quit, on any platform and whatever
    happens next. *)
Theorem failed_first_window_strands_the_process p e ss :
  let h := run ss (boot_with p [None; None; Some e]) in
  windows h = [] ∧ terminated h = false ∧ quits h = 0.
Proof.
  intros h.
  pose proof (run_crippled 0 e ss _ (Nat.le_0_l 2) (boot_crippled p 0 e)) as Hh.
  destruct Hh as (_ & _ & _ & H0 & _). exact (H0 eq_refl).
Qed.

(** X8. If the loading of the document into the first window throws, the
    window is there after readiness, without a document, and in every state
    the process can reach the open windows have no document: nothing loads
    it again. *)
Theorem failed_first_load_leaves_a_blank_window p e ss :
  windows (run [HostReady] (boot_with p [None; None; None; Some e])) =
    [mkWindow 1 shell_options None] ∧
  Forall (λ w, win_document w = None)
         (windows (run ss (boot_with p [None; None; None; Some e]))).
Proof.
  split; [reflexivity|].
  assert (H2 : (1 ≤ 2)%nat) by lia.
  pose proof (run_crippled 1 e ss _ H2 (boot_crippled p 1 e)) as Hh.
  destruct Hh as (_ & _ & _ & _ & H1 & _). exact (H1 eq_refl).
Qed.

(** ** A failure in the listener of ['activate'] *)

Lemma lifecycle_ind h0 (P : Host → Prop) :
  Lifecycle h0 → P h0 →
  (∀ s h h', Lifecycle h → P h → Turn s h h' → P h') →
  ∀ ss, P (run ss h0).
Proof.
  intros H0 P0 Hstep ss. revert h0 H0 P0.
  induction ss as [|s ss IH]; intros h Hh Ph; [exact Ph|].
  simpl. apply IH; [now apply step_lifecycle|].
  apply (Hstep s h); try assumption. now apply step_turn.
Qed.

Lemma emit_activate_fails_0 e h :
  listeners h !! "activate" = Some [ActivateListener] →
  outcomes h = [Some e] →
  emit "activate" h =
  mkHost (platform h) (is_ready h) (reactions h) (listeners h) (windows h) (next_id h)
         (terminated h) []
         (calls h ++ [CallGetAllWindows])
         (inputs h ++ [Fired "activate"]) (uncaught h ++ [e]).
Proof.
  intros Ha Ho. unfold emit. cbn [listeners set_inputs]. rewrite Ha.
  destruct h; cbn [outcomes] in Ho; subst. reflexivity.
Qed.

Lemma emit_activate_fails_1 e h :
  listeners h !! "activate" = Some [ActivateListener] →
  outcomes h = [None; Some e] → windows h = [] →
  emit "activate" h =
  mkHost (platform h) (is_ready h) (reactions h) (listeners h) [] (next_id h)
         (terminated h) []
         (calls h ++ [CallGetAllWindows; CallNewBrowserWindow shell_options])
         (inputs h ++ [Fired "activate"; Counted 0]) (uncaught h ++ [e]).
Proof.
  intros Ha Ho Hw. unfold emit. cbn [listeners set_inputs]. rewrite Ha.
  destruct h; cbn [outcomes windows] in Ho, Hw; subst.
  cbn [platform is_ready reactions listeners next_id terminated calls inputs uncaught].
  rewrite !snoc_two. vm_compute; reflexivity.
Qed.

Lemma emit_activate_fails_2 e h :
  listeners h !! "activate" = Some [ActivateListener] →
  outcomes h = [None; None; Some e] → windows h = [] →
  emit "activate" h =
  mkHost (platform h) (is_ready h) (reactions h) (listeners h)
         [mkWindow (next_id h) shell_options None] (S (next_id h))
         (terminated h) []
         (calls h ++ [CallGetAllWindows; CallNewBrowserWindow shell_options;
                      CallLoadFile (next_id h) shell_document])
         (inputs h ++ [Fired "activate"; Counted 0]) (uncaught h ++ [e]).
Proof.
  intros Ha Ho Hw. unfold emit. cbn [listeners set_inputs]. rewrite Ha.
  destruct h; cbn [outcomes windows] in Ho, Hw; subst.
  cbn [platform is_ready reactions listeners next_id terminated calls inputs uncaught].
  rewrite snoc_three, snoc_two. vm_compute; reflexivity.
Qed.

Lemma activate_listener_installed h :
  Lifecycle h → is_ready h = true →
  listeners h !! "activate" = Some [ActivateListener].
Proof. intros ([_ Hi] & _) Hy. rewrite Hy in Hi. apply Hi. Qed.

(** The state after a failed turn is again a state of the lifecycle, when
    the turn changed no registration, left at most one window, a running
    process, an exhausted plan, and issued no quit. *)
Lemma lifecycle_after_failure h h' l :
  Lifecycle h → is_ready h = true → terminated h = false →
  listeners h' = listeners h → is_ready h' = true → reactions h' = reactions h →
  platform h' = platform h → terminated h' = false → outcomes h' = [] →
  (length (windows h') ≤ 1)%nat →
  calls h' = calls h ++ l → List.filter is_quit (omap command_of l) = [] →
  Lifecycle h'.
Proof.
  intros (Hi & _ & _ & _ & Hq & _) Hy Ht El Ey Er Ep Et Eo Ew Ec Eq.
  split; [eapply Installed_ext; [exact El| |exact Er|exact Hi]; congruence|].
  split; [exact Eo|]. split; [exact Ew|].
  split; [rewrite Ey; discriminate|]. rewrite Et.
  split; [|reflexivity].
  rewrite (quits_app h h' l Ec), Eq, Hq, Ht. reflexivity.
Qed.

(** X9. A failure in the listener of ['activate'] is not remembered.  In any
    state the script can reach with the process ready, running and without
    a window, let the query of the windows or the creation of the window
    throw [e] during a reactivation: no window appears and [e] is reported;
    the listener is still there, and the next reactivation opens the window
    with its document. *)
Theorem failed_activation_is_retried_by_the_next p ss n e :
  (n ≤ 1)%nat →
  is_ready (run ss (boot p)) = true →
  terminated (run ss (boot p)) = false →
  windows (run ss (boot p)) = [] →
  let h := run ss (boot p) in
  let h1 := step Reactivate (set_outcomes (replicate n None ++ [Some e]) h) in
  windows h1 = [] ∧
  uncaught h1 = uncaught h ++ [e] ∧
  listeners h1 !! "activate" = Some [ActivateListener] ∧
  windows (step Reactivate h1) =
    [mkWindow (next_id h) shell_options (Some "dist/index.html")].
Proof.
  intros Hn Hy Ht Hw h h1.
  pose proof (reachable_lifecycle p ss) as Hh. fold h in Hh, Hy, Ht, Hw.
  pose proof (activate_listener_installed h Hh Hy) as Ha.
  assert (E : h1 = emit "activate" (set_outcomes (replicate n None ++ [Some e]) h)).
  { unfold h1, step. cbn [terminated set_outcomes]. now rewrite Ht. }
  assert (Hh1 : Lifecycle h1 ∧ windows h1 = [] ∧ uncaught h1 = uncaught h ++ [e] ∧
                listeners h1 = listeners h ∧ next_id h1 = next_id h ∧
                is_ready h1 = true ∧ terminated h1 = false).
  { destruct n as [|[|n]]; [| |lia]; cbn [replicate app] in E.
    - rewrite (emit_activate_fails_0 e (set_outcomes [Some e] h) Ha eq_refl) in E.
      cbn [platform is_ready reactions listeners windows next_id terminated calls
           inputs uncaught set_outcomes] in E.
      split; [|rewrite E; now repeat split].
      apply (lifecycle_after_failure h h1 [CallGetAllWindows]); try assumption;
        rewrite ?E; simpl; try reflexivity; try assumption.
      rewrite Hw. simpl. lia.
    - rewrite (emit_activate_fails_1 e (set_outcomes [None; Some e] h) Ha eq_refl Hw) in E.
      cbn [platform is_ready reactions listeners windows next_id terminated calls
           inputs uncaught set_outcomes] in E.
      split; [|rewrite E; now repeat split].
      apply (lifecycle_after_failure h h1
               [CallGetAllWindows; CallNewBrowserWindow shell_options]);
        try assumption; rewrite ?E; simpl; try reflexivity; try assumption. lia. }
  destruct Hh1 as (Hl1 & Hw1 & Hu1 & El & En & Ey & Et).
  split; [exact Hw1|]. split; [exact Hu1|].
  split; [now rewrite El|].
  rewrite (step_reactivate_zero h1 Hl1 Et Ey Hw1). simpl. now rewrite En.
Qed.

(** X10. If it is the loading of the document that throws [e] during such a
    reactivation, the new window stays open without a document.  A later
    reactivation finds it and does nothing, and no later turn ever loads a
    document into that window. *)
Theorem failed_load_on_activation_is_not_retried p ss e :
  is_ready (run ss (boot p)) = true →
  terminated (run ss (boot p)) = false →
  windows (run ss (boot p)) = [] →
  let h := run ss (boot p) in
  let h1 := step Reactivate (set_outcomes [None; None; Some e] h) in
  windows h1 = [mkWindow (next_id h) shell_options None] ∧
  uncaught h1 = uncaught h ++ [e] ∧
  windows (step Reactivate h1) = windows h1 ∧
  ∀ ss', Forall (λ w, win_id w = next_id h → win_document w = None)
                (windows (run ss' h1)).
Proof.
  intros Hy Ht Hw h h1.
  pose proof (reachable_lifecycle p ss) as Hh. fold h in Hh, Hy, Ht, Hw.
  pose proof (activate_listener_installed h Hh Hy) as Ha.
  assert (E : h1 = emit "activate" (set_outcomes [None; None; Some e] h)).
  { unfold h1, step. cbn [terminated set_outcomes]. now rewrite Ht. }
  rewrite (emit_activate_fails_2 e (set_outcomes [None; None; Some e] h) Ha eq_refl Hw) in E.
  cbn [platform is_ready reactions listeners windows next_id terminated calls
       inputs uncaught set_outcomes] in E.
  assert (Hh1 : Lifecycle h1).
  { apply (lifecycle_after_failure h h1
             [CallGetAllWindows; CallNewBrowserWindow shell_options;
              CallLoadFile (next_id h) shell_document]);
      try assumption; rewrite ?E; simpl; try reflexivity; try assumption; try lia. }
  split; [now rewrite E|]. split; [now rewrite E|]. split.
  { apply step_reactivate_open; [exact Hh1|]. now rewrite E. }
  intros ss'.
  apply (lifecycle_ind h1 (λ h', (next_id h < next_id h')%nat ∧
           Forall (λ w, win_id w = next_id h → win_document w = None) (windows h')));
    [exact Hh1| |].
  { rewrite E. simpl. split; [lia|]. now repeat constructor. }
  intros s h2 h3 _ [Hlt Hf] T.
  destruct T; simpl; try (split; [first [exact Hlt | lia]|]);
    try exact Hf; try constructor; try constructor; try (now split).
  all: simpl; intros; lia.
Qed.

(** ** What holds whatever fails *)







Lemma activate_listener_effect h :
  let h' := snd (run_callback ActivateListener h) in
  (windows h' = windows h ∨ windows h = [] ∧ ∃ w, windows h' = [w]) ∧
  is_ready h' = is_ready h ∧ reactions h' = reactions h ∧ listeners h' = listeners h.
Proof.
  destruct h; unfold_script; split_cases; simpl;
    repeat split; first [now left | right; split; [reflexivity|eexists; reflexivity]].
Qed.

Lemma closed_listener_effect h :
  let h' := snd (run_callback WindowAllClosedListener h) in
  (windows h' = windows h ∨ windows h' = []) ∧
  is_ready h' = is_ready h ∧ reactions h' = reactions h ∧ listeners h' = listeners h.
Proof.
  destruct h; unfold_script; split_cases; simpl;
    repeat split; first [now left | now right].
Qed.

Lemma continuation_effect h :
  windows h = [] →
  let h' := snd (run_callback ReadyContinuation h) in
  (length (windows h') ≤ 1)%nat ∧
  is_ready h' = is_ready h ∧ reactions h' = reactions h ∧
  (listeners h' = listeners h ∨
   listeners h' =
     <["activate" := default [] (listeners h !! "activate") ++ [ActivateListener]]>
       (listeners h)).
Proof.
  intros Hw. destruct h; simpl in Hw; subst; unfold_script; split_cases; simpl;
    repeat split; try lia; first [now left | now right].
Qed.

Lemma dispatch_one cb h :
  let h' := snd (run_callback cb h) in
  windows (dispatch [cb] h) = windows h' ∧ is_ready (dispatch [cb] h) = is_ready h' ∧
  reactions (dispatch [cb] h) = reactions h' ∧ listeners (dispatch [cb] h) = listeners h'.
Proof. simpl. destruct (run_callback cb h) as [[u|e] h']; now repeat split. Qed.

Lemma settle_one cb h :
  let h' := snd (run_callback cb h) in
  windows (settle [cb] h) = windows h' ∧ is_ready (settle [cb] h) = is_ready h' ∧
  reactions (settle [cb] h) = reactions h' ∧ listeners (settle [cb] h) = listeners h'.
Proof. simpl. destruct (run_callback cb h) as [[u|e] h']; now repeat split. Qed.

Lemma Bounded_same h h' :
  windows h' = windows h → is_ready h' = is_ready h → reactions h' = reactions h →
  listeners h' = listeners h → Bounded h → Bounded h'.
Proof. unfold Bounded. intros -> -> -> ->. trivial. Qed.

Lemma step_bounded s h : Bounded h → Bounded (step s h).
Proof.
  intros Hb. unfold step. destruct (terminated h); [exact Hb|].
  pose proof Hb as (Hl & Hu & Hr & Hc & Ha & Hw).
  destruct s as [| |win].
  - destruct (is_ready h) eqn:Hy; [exact Hb|].
    destruct (Hu eq_refl) as [Hws Han]. unfold fulfil_ready.
    set (h0 := set_reactions [] (set_is_ready true
                 (set_inputs (inputs h ++ [Fired "ready"]) h))).
    destruct Hc as [-> | ->].
    + simpl. unfold Bounded. simpl. rewrite Hws.
      repeat split; try (simpl; lia); try discriminate; auto.
    + destruct (settle_one ReadyContinuation h0) as (E1 & E2 & E3 & E4).
      destruct (continuation_effect h0 Hws) as (C1 & C2 & C3 & C4).
      unfold Bounded. rewrite E1, E2, E3, E4, C2, C3.
      split; [exact C1|]. split; [discriminate|]. split; [reflexivity|].
      split; [now left|].
      destruct C4 as [-> | ->]; simpl.
      * split; [now left|exact Hw].
      * rewrite Han, lookup_insert_eq, lookup_insert_ne by discriminate.
        split; [now right|exact Hw].
  - unfold emit. set (h0 := set_inputs (inputs h ++ [Fired "activate"]) h).
    destruct Ha as [Ha | Ha]; rewrite Ha.
    + simpl. exact Hb.
    + change (default [] (Some [ActivateListener])) with [ActivateListener].
      destruct (dispatch_one ActivateListener h0) as (E1 & E2 & E3 & E4).
      destruct (activate_listener_effect h0) as (C1 & C2 & C3 & C4).
      destruct C1 as [C1 | [C0 [w C1]]].
      * apply (Bounded_same h);
          [rewrite E1, C1|rewrite E2, C2|rewrite E3, C3|rewrite E4, C4|exact Hb];
          reflexivity.
      * assert (Hy : is_ready h = true).
        { destruct (is_ready h); [reflexivity|]. destruct (Hu eq_refl). congruence. }
        unfold Bounded. rewrite E1, E2, E3, E4, C1, C2, C3, C4. simpl. rewrite Hy.
        repeat split; try (simpl; lia); try discriminate; auto.
  - unfold close_window. destruct (existsb _ _); [|exact Hb].
    cbn [windows set_windows].
    assert (Hf : (length (filter (λ w, win_id w ≠ win) (windows h)) ≤ 1)%nat).
    { etransitivity; [apply length_filter|exact Hl]. }
    assert (Hfu : is_ready h = false → filter (λ w, win_id w ≠ win) (windows h) = []).
    { intros Hy. destruct (Hu Hy) as [-> _]. reflexivity. }
    destruct (filter _ _) as [|w ws] eqn:Ef.
    + unfold emit.
      set (h0 := set_inputs (inputs (set_windows [] h) ++ [Fired "window-all-closed"])
                            (set_windows [] h)).
      assert (Hb0 : Bounded h0).
      { unfold Bounded. simpl. repeat split; try (simpl; lia); auto; now apply Hu. }
      change (listeners (set_windows [] h)) with (listeners h).
      destruct Hw as [Hw | Hw]; rewrite Hw; [simpl; exact Hb0|].
      change (default [] (Some [WindowAllClosedListener]))
        with [WindowAllClosedListener].
      destruct (dispatch_one WindowAllClosedListener h0) as (E1 & E2 & E3 & E4).
      destruct (closed_listener_effect h0) as (C1 & C2 & C3 & C4).
      apply (Bounded_same h0);
        [|rewrite E2, C2|rewrite E3, C3|rewrite E4, C4|exact Hb0]; try reflexivity.
      rewrite E1. destruct C1 as [-> | ->]; reflexivity.
    + unfold Bounded. simpl.
      split; [exact Hf|]. split; [|auto].
      intros Hy. specialize (Hfu Hy). discriminate.
Qed.

Lemma boot_bounded p plan : Bounded (boot_with p plan).
Proof.
  destruct plan as [|[e1|] [|[e2|] plan]]; vm_compute;
    repeat split; auto; lia.
Qed.

(** X12. Whichever host calls fail and whatever the host and the user do,
    the process never has more than one window open, has none before
    readiness, and never has more than one listener on ['activate'] or on
    ['window-all-closed']. *)
Theorem never_two_windows_whatever_fails p plan ss :
  let h := run ss (boot_with p plan) in
  (length (windows h) ≤ 1)%nat ∧
  (is_ready h = false → windows h = []) ∧
  (length (default [] (listeners h !! "activate")) ≤ 1)%nat ∧
  (length (default [] (listeners h !! "window-all-closed")) ≤ 1)%nat.
Proof.
  intros h.
  assert (Hb : Bounded h).
  { unfold h. generalize (boot_bounded p plan). generalize (boot_with p plan).
    induction ss as [|s ss IH]; intros h0 H0; [exact H0|].
    simpl. apply IH, step_bounded, H0. }
  destruct Hb as (Hl & Hu & _ & _ & Ha & Hw).
  split; [exact Hl|]. split; [intros Hy; now apply Hu|].
  split; [destruct Ha as [-> | ->]|destruct Hw as [-> | ->]]; simpl; lia.
Qed.

End Shell.

(** * The theorems at work

    The script installed in [/app/dist], with [path.join] taken as
    [posix_join]. *)

Lemma ready_creates_one_window_witness :
  is_ready (run posix_join "/app/dist" [Reactivate] (boot "linux")) = false ∧
  created (step posix_join "/app/dist" HostReady
             (run posix_join "/app/dist" [Reactivate] (boot "linux"))) = 1.
Proof.
  split; [vm_compute; reflexivity|].
  apply (ready_creates_one_window posix_join "/app/dist" "linux" [Reactivate]).
  vm_compute; reflexivity.
Defined.

Lemma activation_without_window_creates_one_witness :
  is_ready (run posix_join "/app/dist" [HostReady; UserCloses 1] (boot "darwin")) = true ∧
  activations_at_zero posix_join "/app/dist"
    [Reactivate; UserCloses 2; Reactivate]
    (run posix_join "/app/dist" [HostReady; UserCloses 1] (boot "darwin")) ∧
  created (run posix_join "/app/dist" [Reactivate; UserCloses 2; Reactivate]
             (run posix_join "/app/dist" [HostReady; UserCloses 1] (boot "darwin"))) =
  created (run posix_join "/app/dist" [HostReady; UserCloses 1] (boot "darwin")) + 2.
Proof.
  assert (Hz : activations_at_zero posix_join "/app/dist"
                 [Reactivate; UserCloses 2; Reactivate]
                 (run posix_join "/app/dist" [HostReady; UserCloses 1] (boot "darwin"))).
  { cbn [activations_at_zero].
    repeat split; intros; try discriminate; vm_compute; reflexivity. }
  assert (Hy : is_ready (run posix_join "/app/dist" [HostReady; UserCloses 1]
                           (boot "darwin")) = true)
    by (vm_compute; reflexivity).
  split; [exact Hy|]. split; [exact Hz|].
  exact (proj1 (activation_without_window_creates_one posix_join "/app/dist" "darwin"
                  [HostReady; UserCloses 1] [Reactivate; UserCloses 2; Reactivate]
                  Hy Hz)).
Defined.

Lemma activation_with_window_is_noop_witness :
  windows (run posix_join "/app/dist" [HostReady] (boot "linux")) ≠ [] ∧
  windows (step posix_join "/app/dist" Reactivate
             (run posix_join "/app/dist" [HostReady] (boot "linux"))) =
  windows (run posix_join "/app/dist" [HostReady] (boot "linux")).
Proof.
  assert (Hw : windows (run posix_join "/app/dist" [HostReady] (boot "linux")) ≠ [])
    by (vm_compute; discriminate).
  split; [exact Hw|].
  apply (activation_with_window_is_noop posix_join "/app/dist" "linux" [HostReady] Hw).
Defined.

Lemma last_window_closed_quits_once_witness :
  "linux" ≠ "darwin" ∧
  terminated (run posix_join "/app/dist" [HostReady] (boot "linux")) = false ∧
  windows (run posix_join "/app/dist" [HostReady] (boot "linux")) =
    [mkWindow 1 (shell_options posix_join "/app/dist") (Some shell_document)] ∧
  quits (step posix_join "/app/dist" (UserCloses 1)
           (run posix_join "/app/dist" [HostReady] (boot "linux"))) = 1.
Proof.
  split; [discriminate|]. split; [vm_compute; reflexivity|].
  split; [vm_compute; reflexivity|].
  apply (last_window_closed_quits_once posix_join "/app/dist" "linux" [HostReady]
           (mkWindow 1 (shell_options posix_join "/app/dist") (Some shell_document)));
    [discriminate|vm_compute; reflexivity|vm_compute; reflexivity].
Defined.

Lemma darwin_never_quits_witness :
  windows (run posix_join "/app/dist" [HostReady] (boot "darwin")) =
    [mkWindow 1 (shell_options posix_join "/app/dist") (Some shell_document)] ∧
  terminated (step posix_join "/app/dist" (UserCloses 1)
                (run posix_join "/app/dist" [HostReady] (boot "darwin"))) = false.
Proof.
  split; [vm_compute; reflexivity|].
  destruct (darwin_never_quits posix_join "/app/dist" [HostReady]) as (_ & _ & H).
  apply (H (mkWindow 1 (shell_options posix_join "/app/dist") (Some shell_document))).
  vm_compute; reflexivity.
Defined.

Lemma window_after_activation_and_no_duplicate_witness :
  is_ready (run posix_join "/app/dist" [HostReady; UserCloses 1] (boot "darwin")) = true ∧
  terminated (run posix_join "/app/dist" [HostReady; UserCloses 1] (boot "darwin")) = false ∧
  windows (step posix_join "/app/dist" Reactivate
             (run posix_join "/app/dist" [HostReady; UserCloses 1] (boot "darwin"))) ≠ [].
Proof.
  split; [vm_compute; reflexivity|]. split; [vm_compute; reflexivity|].
  apply (window_after_activation_and_no_duplicate posix_join "/app/dist" "darwin"
           [HostReady; UserCloses 1]); vm_compute; reflexivity.
Defined.

Lemma host_failure_propagates_witness :
  outcomes (boot_with "linux" [None; None; None; Some (HostFailure "no display")]) =
    replicate 1 None ++ [Some (HostFailure "no display")] ∧
  1 < length (calls_of posix_join "/app/dist" ReadyContinuation
                (set_outcomes []
                   (boot_with "linux" [None; None; None; Some (HostFailure "no display")]))) ∧
  fst (run_callback posix_join "/app/dist" ReadyContinuation
         (boot_with "linux" [None; None; None; Some (HostFailure "no display")])) =
    Throw (HostFailure "no display").
Proof.
  split; [vm_compute; reflexivity|]. split; [vm_compute; lia|].
  apply (host_failure_propagates posix_join "/app/dist" ReadyContinuation
           (boot_with "linux" [None; None; None; Some (HostFailure "no display")])
           1 (HostFailure "no display") []);
    [vm_compute; reflexivity|vm_compute; lia].
Defined.

Lemma activation_before_ready_is_ignored_witness :
  is_ready (run posix_join "/app/dist" [Reactivate; UserCloses 1] (boot "darwin")) = false ∧
  created (step posix_join "/app/dist" Reactivate
             (run posix_join "/app/dist" [Reactivate; UserCloses 1] (boot "darwin"))) = 0.
Proof.
  split; [vm_compute; reflexivity|].
  apply (activation_before_ready_is_ignored posix_join "/app/dist" "darwin"
           [Reactivate; UserCloses 1]).
  vm_compute; reflexivity.
Defined.

Lemma commands_determined_by_inputs_witness :
  inputs (run posix_join "/app/dist" [HostReady; UserCloses 7; Reactivate] (boot "linux")) =
  inputs (run posix_join "/app/dist" [HostReady; Reactivate; HostReady] (boot "linux")) ∧
  commands (run posix_join "/app/dist" [HostReady; UserCloses 7; Reactivate] (boot "linux")) =
  commands (run posix_join "/app/dist" [HostReady; Reactivate; HostReady] (boot "linux")).
Proof.
  split; [vm_compute; reflexivity|].
  apply (commands_determined_by_inputs posix_join "/app/dist" "linux"
           [HostReady; UserCloses 7; Reactivate] [HostReady; Reactivate; HostReady]).
  vm_compute; reflexivity.
Defined.

Lemma one_window_for_life_off_darwin_witness :
  "linux" ≠ "darwin" ∧
  created (run posix_join "/app/dist" [HostReady; Reactivate] (boot "linux")) =
  (if is_ready (run posix_join "/app/dist" [HostReady; Reactivate] (boot "linux"))
   then 1 else 0).
Proof.
  assert (Hp : "linux" ≠ "darwin") by discriminate.
  split; [exact Hp|].
  exact (proj1 (one_window_for_life_off_darwin posix_join "/app/dist" "linux"
                  [HostReady; Reactivate] Hp)).
Defined.

Lemma failed_continuation_disables_reactivation_witness :
  (1 ≤ 2)%nat ∧
  listeners
    (run posix_join "/app/dist" [HostReady; Reactivate]
       (boot_with "linux"
          (None :: None :: replicate 1 None ++ [Some (HostFailure "load failed")])))
    !! "activate" = None.
Proof.
  assert (Hn : (1 ≤ 2)%nat) by lia.
  split; [exact Hn|].
  exact (proj1 (failed_continuation_disables_reactivation posix_join "/app/dist"
                  "linux" 1 (HostFailure "load failed") [HostReady; Reactivate] Hn)).
Defined.

Lemma failed_activation_is_retried_by_the_next_witness :
  (1 ≤ 1)%nat ∧
  is_ready (run posix_join "/app/dist" [HostReady; UserCloses 1] (boot "darwin")) = true ∧
  terminated (run posix_join "/app/dist" [HostReady; UserCloses 1] (boot "darwin")) = false ∧
  windows (run posix_join "/app/dist" [HostReady; UserCloses 1] (boot "darwin")) = [] ∧
  windows
    (step posix_join "/app/dist" Reactivate
       (set_outcomes (replicate 1 None ++ [Some (HostFailure "no display")])
          (run posix_join "/app/dist" [HostReady; UserCloses 1] (boot "darwin")))) = [].
Proof.
  assert (Hn : (1 ≤ 1)%nat) by lia.
  assert (Hy : is_ready (run posix_join "/app/dist" [HostReady; UserCloses 1]
                           (boot "darwin")) = true) by (vm_compute; reflexivity).
  assert (Ht : terminated (run posix_join "/app/dist" [HostReady; UserCloses 1]
                             (boot "darwin")) = false) by (vm_compute; reflexivity).
  assert (Hw : windows (run posix_join "/app/dist" [HostReady; UserCloses 1]
                          (boot "darwin")) = []) by (vm_compute; reflexivity).
  split; [exact Hn|]. split; [exact Hy|]. split; [exact Ht|]. split; [exact Hw|].
  exact (proj1 (failed_activation_is_retried_by_the_next posix_join "/app/dist"
                  "darwin" [HostReady; UserCloses 1] 1 (HostFailure "no display")
                  Hn Hy Ht Hw)).
Defined.

Lemma failed_load_on_activation_is_not_retried_witness :
  is_ready (run posix_join "/app/dist" [HostReady; UserCloses 1] (boot "darwin")) = true ∧
  terminated (run posix_join "/app/dist" [HostReady; UserCloses 1] (boot "darwin")) = false ∧
  windows (run posix_join "/app/dist" [HostReady; UserCloses 1] (boot "darwin")) = [] ∧
  windows
    (step posix_join "/app/dist" Reactivate
       (set_outcomes [None; None; Some (HostFailure "load failed")]
          (run posix_join "/app/dist" [HostReady; UserCloses 1] (boot "darwin")))) =
  [mkWindow
     (next_id (run posix_join "/app/dist" [HostReady; UserCloses 1] (boot "darwin")))
     (shell_options posix_join "/app/dist") None].
Proof.
  assert (Hy : is_ready (run posix_join "/app/dist" [HostReady; UserCloses 1]
                           (boot "darwin")) = true) by (vm_compute; reflexivity).
  assert (Ht : terminated (run posix_join "/app/dist" [HostReady; UserCloses 1]
                             (boot "darwin")) = false) by (vm_compute; reflexivity).
  assert (Hw : windows (run posix_join "/app/dist" [HostReady; UserCloses 1]
                          (boot "darwin")) = []) by (vm_compute; reflexivity).
  split; [exact Hy|]. split; [exact Ht|]. split; [exact Hw|].
  exact (proj1 (failed_load_on_activation_is_not_retried posix_join "/app/dist"
                  "darwin" [HostReady; UserCloses 1] (HostFailure "load failed")
                  Hy Ht Hw)).
Defined.
